(** * audiobook_download: a shallow embedding and its verified properties

    The development follows [src/audiobook_download.py]: the Python string
    operations the script relies on, the provider registry, the effectful
    operations (page fetch, download loop, playlist writer, tag rewriter) as
    functions over an explicit world, and then the properties. *)

From Stdlib Require Import String Ascii List Bool Arith ZArith Lia DecimalString DecimalNat.
Import ListNotations.

Local Open Scope string_scope.
Local Open Scope list_scope.

Infix "+++" := String.append (at level 60, right associativity).

(** ** Python strings *)

Module PyStr.

(** The line feed and the double quote, which have no literal form. *)
Definition nl : string := String (ascii_of_nat 10) EmptyString.
Definition dq : string := String (ascii_of_nat 34) EmptyString.

(** [str(i)] for a non-negative integer. *)
Definition str (n : nat) : string := NilEmpty.string_of_uint (Nat.to_uint n).

Fixpoint zeros (n : nat) : string :=
  match n with
  | O => EmptyString
  | S k => String "0"%char (zeros k)
  end.

(** [s.zfill(width)]; the script only pads digit strings, so the sign
    handling of [zfill] never comes into play. *)
Definition zfill (width : nat) (s : string) : string :=
  zeros (width - String.length s) +++ s.

(** [s.startswith(p)] *)
Definition startswith (s p : string) : bool := String.prefix p s.

Fixpoint drop (n : nat) (s : string) : string :=
  match n, s with
  | O, _ => s
  | S k, EmptyString => EmptyString
  | S k, String _ s' => drop k s'
  end.

(** [needle in hay] on strings: the substring test. *)
Fixpoint contains (needle hay : string) : bool :=
  String.prefix needle hay
  || match hay with
     | EmptyString => false
     | String _ hay' => contains needle hay'
     end.

(** [s.split(sep)] for a one-character separator: the result is never
    empty, [''.split('/')] being [['']]. *)
Fixpoint split (s : string) (sep : ascii) : list string :=
  match s with
  | EmptyString => [EmptyString]
  | String c s' =>
      if Ascii.eqb c sep then EmptyString :: split s' sep
      else match split s' sep with
           | [] => [String c EmptyString]
           | x :: xs => String c x :: xs
           end
  end.

(** [s.replace(old, new)]: every non-overlapping occurrence, left to
    right.  [skip] counts the characters of an occurrence still to be
    dropped. *)
Fixpoint replace_from (old new : string) (skip : nat) (s : string) : string :=
  match s with
  | EmptyString => EmptyString
  | String c s' =>
      match skip with
      | S k => replace_from old new k s'
      | O =>
          if String.prefix old s
          then new +++ replace_from old new (String.length old - 1) s'
          else String c (replace_from old new 0 s')
      end
  end.

Fixpoint intersperse (new s : string) : string :=
  match s with
  | EmptyString => new
  | String c s' => new +++ String c (intersperse new s')
  end.

Definition replace (s old new : string) : string :=
  match old with
  | EmptyString => intersperse new s
  | _ => replace_from old new 0 s
  end.

(** The shortest run of characters of [s] that is followed by [stop],
    with what comes after [stop].  With [dotall = false] the run may not
    cross a line feed, as [.] does not match one. *)
Fixpoint take_until (stop : string) (dotall : bool) (s : string)
  : option (string * string) :=
  if String.prefix stop s then Some (EmptyString, drop (String.length stop) s)
  else match s with
       | EmptyString => None
       | String c s' =>
           if negb dotall && Ascii.eqb c (ascii_of_nat 10) then None
           else match take_until stop dotall s' with
                | Some (cap, rest) => Some (String c cap, rest)
                | None => None
                end
       end.

End PyStr.
Import PyStr.

(** [slist(lst, idx, default)]: Python indexing, negative indices counting
    from the end, the default when the index is out of range. *)
Definition slist {A : Type} (lst : list A) (idx : Z) (default : A) : A :=
  let len := Z.of_nat (List.length lst) in
  if (0 <=? idx)%Z && (idx <? len)%Z then nth (Z.to_nat idx) lst default
  else if (idx <? 0)%Z && (- len <=? idx)%Z then nth (Z.to_nat (len + idx)) lst default
  else default.

(** [scast(value, target_type, default_value)]: [None] stands for Python's
    [None], and a conversion that raises is one that returns [None]. *)
Definition scast {A B : Type} (value : option A) (target_type : A -> option B)
  (default_value : B) : B :=
  match value with
  | None => default_value
  | Some v => match target_type v with
              | Some r => r
              | None => default_value
              end
  end.

(** ** Compiled patterns *)

(** A compiled pattern, as [re.compile(source, flags)] builds it. *)
Record rx : Type := re_compile { rx_source : string; rx_dotall : bool }.

(** [re.sub('&#.*?;', '', t)]: at each position, left to right, a match
    is [&#], then the shortest run without a line feed that reaches a [;].
    The match is deleted and the scan goes on after it. *)
Fixpoint sub_refs_from (skip : nat) (t : string) : string :=
  match t with
  | EmptyString => EmptyString
  | String c t' =>
      match skip with
      | S k => sub_refs_from k t'
      | O =>
          match (if String.prefix "&#" t then take_until ";" false (drop 2 t) else None) with
          | Some (body, _) => sub_refs_from (2 + String.length body) t'
          | None => String c (sub_refs_from 0 t')
          end
      end
  end.

Definition sub_refs (t : string) : string := sub_refs_from 0 t.

(** An engine for the patterns of the shape [PRE(.*?)POST] with literal
    [PRE] and [POST], the shape of the registry's chapter and title
    patterns: [findall] returns the captured group of every
    non-overlapping match, left to right. *)
Fixpoint findall_from (pre post : string) (dotall : bool) (skip : nat) (s : string)
  : list string :=
  match s with
  | EmptyString => []
  | String _ s' =>
      match skip with
      | S k => findall_from pre post dotall k s'
      | O =>
          match (if String.prefix pre s
                 then take_until post dotall (drop (String.length pre) s)
                 else None) with
          | Some (cap, _) =>
              cap :: findall_from pre post dotall
                       (String.length pre + String.length cap + String.length post - 1) s'
          | None => findall_from pre post dotall 0 s'
          end
      end
  end.

Definition simple_findall (r : rx) (s : string) : list string :=
  match take_until "(.*?)" true (rx_source r) with
  | Some (pre, post) => findall_from pre post (rx_dotall r) 0 s
  | None => []
  end.

(** ** The provider registry *)

(** The body of a registry entry: every key is optional, as in the dict. *)
Record Body : Type := mkBody {
  ext : option string;
  rx_chapters : option rx;
  rx_href : option rx;
  rx_title : option rx;
  title_from_href : option bool;
  copy_from : option string;
  search_url : option string;
  rx_slinks : option rx;
  rx_stitles : option rx;
  slinks_prepend : option string
}.

Definition empty_body : Body :=
  mkBody None None None None None None None None None None.

(** [d.get(key)] on a dict kept as an association list in insertion order. *)
Fixpoint dict_get {V : Type} (d : list (string * V)) (key : string) : option V :=
  match d with
  | [] => None
  | (k, v) :: d' => if String.eqb k key then Some v else dict_get d' key
  end.

(** [d[key] = v]: an existing key keeps its place, a new one goes last. *)
Fixpoint dict_set {V : Type} (d : list (string * V)) (key : string) (v : V)
  : list (string * V) :=
  match d with
  | [] => [(key, v)]
  | (k, v0) :: d' =>
      if String.eqb k key then (k, v) :: d' else (k, v0) :: dict_set d' key v
  end.

Definition fulllength_body : Body :=
  {| ext := Some "mp3";
     rx_chapters := Some (re_compile (" src=" +++ dq +++ "(https://.*?mp3.*?)" +++ dq) false);
     rx_href := None;
     rx_title := None;
     title_from_href := None;
     copy_from := None;
     search_url := Some "https://fulllengthaudiobooks.com/?s=%q";
     rx_slinks := Some (re_compile
       ("<h2 class=" +++ dq +++ "entry-title post-title" +++ dq +++ "><a href=" +++ dq
        +++ "(.*?)" +++ dq +++ ".*?rel=" +++ dq +++ "bookmark" +++ dq +++ ">.*?</a></h2>") false);
     rx_stitles := Some (re_compile
       ("<h2 class=" +++ dq +++ "entry-title post-title" +++ dq +++ "><a href=" +++ dq
        +++ ".*?" +++ dq +++ ".*?rel=" +++ dq +++ "bookmark" +++ dq +++ ">(.*?)</a></h2>") false);
     slinks_prepend := None |}.

Definition librivox_body : Body :=
  {| ext := Some "mp3";
     rx_chapters := Some (re_compile "<tr>(.*?)</tr>" true);
     rx_href := Some (re_compile
       ("</td>.*?<td><a href=" +++ dq +++ "(.*?\.mp3.*?)" +++ dq +++ " class=" +++ dq
        +++ "chapter-name" +++ dq +++ ">") true);
     rx_title := Some (re_compile
       ("class=" +++ dq +++ "chapter-name" +++ dq +++ ">(.*?)</a></td>") true);
     title_from_href := Some true;
     copy_from := None;
     search_url := None;
     rx_slinks := None;
     rx_stitles := None;
     slinks_prepend := None |}.

Definition entry_title_links : rx :=
  re_compile ("<h2 class=" +++ dq +++ "entry-title" +++ dq +++ "><a href=" +++ dq
              +++ "(.*?)" +++ dq +++ ".*?rel=" +++ dq +++ "bookmark" +++ dq +++ ">.*?</a></h2>") false.

Definition entry_title_titles : rx :=
  re_compile ("<h2 class=" +++ dq +++ "entry-title" +++ dq +++ "><a href=" +++ dq
              +++ ".*?" +++ dq +++ ".*?rel=" +++ dq +++ "bookmark" +++ dq +++ ">(.*?)</a></h2>") false.

Definition golden_body : Body :=
  {| ext := None; rx_chapters := None; rx_href := None; rx_title := None;
     title_from_href := None;
     copy_from := Some "https://fulllengthaudiobooks.com/";
     search_url := Some "https://goldenaudiobooks.com/?s=%q";
     rx_slinks := Some entry_title_links;
     rx_stitles := Some entry_title_titles;
     slinks_prepend := None |}.

Definition bookaudio_body : Body :=
  {| ext := None; rx_chapters := None; rx_href := None; rx_title := None;
     title_from_href := None;
     copy_from := Some "https://fulllengthaudiobooks.com/";
     search_url := Some "https://bookaudiobooks.com/?s=%q";
     rx_slinks := Some entry_title_links;
     rx_stitles := Some entry_title_titles;
     slinks_prepend := None |}.

Definition archive_body : Body :=
  {| ext := Some "mp3";
     rx_chapters := Some (re_compile ("<div itemprop=" +++ dq +++ "(.*?)</div>") true);
     rx_href := Some (re_compile
       ("<link itemprop=" +++ dq +++ "associatedMedia" +++ dq +++ " href=" +++ dq
        +++ "([^<]*?\.mp3)" +++ dq +++ ">") true);
     rx_title := Some (re_compile ("content=" +++ dq +++ "(.*?)" +++ dq) false);
     title_from_href := Some false;
     copy_from := None;
     search_url := Some
       ("https://archive.org/search.php?query=%q&and[]=mediatype%3A%22audio%22"
        +++ "&and[]=subject%3A%22audiobook%22");
     rx_slinks := Some (re_compile
       ("<a href=" +++ dq +++ "([^<]*?)" +++ dq +++ " title=" +++ dq +++ ".*?" +++ dq
        +++ ".*?data-event-click-tracking=" +++ dq +++ "GenericNonCollection|ItemTile"
        +++ dq +++ ">") true);
     rx_stitles := Some (re_compile
       ("<a href=" +++ dq +++ "[^<]*?" +++ dq +++ " title=" +++ dq +++ "(.*?)" +++ dq
        +++ ".*?data-event-click-tracking=" +++ dq +++ "GenericNonCollection|ItemTile"
        +++ dq +++ ">") true);
     slinks_prepend := Some "https://archive.org" |}.

Definition PROVIDERS : list (string * Body) :=
  [ ("https://fulllengthaudiobooks.com/", fulllength_body);
    ("https://librivox.org/", librivox_body);
    ("https://goldenaudiobooks.com/", golden_body);
    ("https://bookaudiobooks.com/", bookaudio_body);
    ("https://archive.org", archive_body) ].

(** ** The manifest *)

(** A manifest entry's value: [href] and [title] are set when the entry is
    created, [downloaded] and [file] by the download loop. *)
Record Item : Type := mkItem {
  href : string;
  title : string;
  downloaded : option bool;
  file : option string
}.

(** The manifest: a dict from basename to item, in insertion order. *)
Definition Manifest : Type := list (string * Item).

Definition set_downloaded (b : bool) (it : Item) : Item :=
  mkItem (href it) (title it) (Some b) (file it).

Definition set_file (f : string) (it : Item) : Item :=
  mkItem (href it) (title it) (downloaded it) (Some f).

(** ** The world, and the monad of the effectful operations *)

Inductive Node : Type :=
| Dir
| File (bytes : string).

(** What the script asks of its collaborators, in the order it asks.  The
    events of the download loop and of the tag pass carry the basename of
    the entry being processed. *)
Inductive Event : Type :=
| EvPage (url : string)
| EvFetch (basename url : string)
| EvWrite (basename path : string)
| EvPlaylist (path : string)
| EvLoad (basename : string) (path : option string)
| EvSave (basename path new_title : string).

Inductive Response : Type :=
| Body_ (data : string)
| Failed (e : string).

(** The surroundings the script cannot change: what the network answers,
    whether a path can be opened for writing ([Some e] is the [OSError]),
    the title tag the tag library reads from freshly written bytes, the
    error it raises for a path it cannot load, and whether a save goes
    through. *)
Record Env : Type := mkEnv {
  urlopen : string -> Response;
  open_error : string -> option string;
  audio_title : string -> option string;
  load_error : option string -> string;
  save_error : string -> option string
}.

(** The state the script reads and changes: the filesystem, the title tags
    of the loadable audio files, what was printed, and the trace of calls
    to the collaborators (oldest first). *)
Record World : Type := mkWorld {
  fs : list (string * Node);
  tagdb : list (string * string);
  stdout : list string;
  trace : list Event
}.

Inductive Result (A : Type) : Type :=
| Ok (a : A) (w : World)
| Exit (code : Z) (w : World)
| Raise (exn : string) (w : World).
Arguments Ok {A} a w.
Arguments Exit {A} code w.
Arguments Raise {A} exn w.

Definition M (A : Type) : Type := World -> Result A.

Definition ret {A : Type} (a : A) : M A := fun w => Ok a w.

Definition bind {A B : Type} (m : M A) (k : A -> M B) : M B :=
  fun w => match m w with
           | Ok a w' => k a w'
           | Exit c w' => Exit c w'
           | Raise e w' => Raise e w'
           end.

Notation "x <- m ;; k" := (bind m (fun x => k))
  (at level 61, m at next level, right associativity).
Notation "m ;; k" := (bind m (fun _ => k))
  (at level 61, right associativity).

Definition print (line : string) : M unit :=
  fun w => Ok tt (mkWorld (fs w) (tagdb w) (stdout w ++ [line]) (trace w)).

Definition emit (ev : Event) : M unit :=
  fun w => Ok tt (mkWorld (fs w) (tagdb w) (stdout w) (trace w ++ [ev])).

Definition sys_exit {A : Type} (code : Z) : M A := fun w => Exit code w.

Definition raise {A : Type} (exn : string) : M A := fun w => Raise exn w.

Definition result_world {A : Type} (r : Result A) : World :=
  match r with
  | Ok _ w => w
  | Exit _ w => w
  | Raise _ w => w
  end.

Definition isfile (path : string) : M bool :=
  fun w => Ok (match dict_get (fs w) path with Some (File _) => true | _ => false end) w.

Definition isdir (path : string) : M bool :=
  fun w => Ok (match dict_get (fs w) path with Some Dir => true | _ => false end) w.

Fixpoint dict_del {V : Type} (d : list (string * V)) (key : string) : list (string * V) :=
  match d with
  | [] => []
  | (k, v) :: d' => if String.eqb k key then dict_del d' key else (k, v) :: dict_del d' key
  end.

(** [f.write(data)] on a freshly opened file: the file holds [data], and
    the tag library sees the title tag those bytes carry, if any. *)
Definition write_file (audio : string -> option string) (path data : string) : M unit :=
  fun w => Ok tt (mkWorld (dict_set (fs w) path (File data))
                          (match audio data with
                           | Some t => dict_set (tagdb w) path t
                           | None => dict_del (tagdb w) path
                           end)
                          (stdout w) (trace w)).

Definition set_tag (path new_title : string) : M unit :=
  fun w => Ok tt (mkWorld (fs w) (dict_set (tagdb w) path new_title) (stdout w) (trace w)).

(** [music_tag.load_file(file)] followed by [f['title']]: the title of a
    loadable file, nothing for [None] or for a path the library cannot
    load (it raises). *)
Definition load_title (path : option string) : M (option string) :=
  fun w => Ok (match path with
               | Some p => dict_get (tagdb w) p
               | None => None
               end) w.

(** A [for] loop over a list whose body returns the updated element. *)
Fixpoint for_each {A B : Type} (body : A -> M B) (l : list A) : M (list B) :=
  match l with
  | [] => ret []
  | a :: l' => b <- body a ;; bs <- for_each body l' ;; ret (b :: bs)
  end.

(** How an f-string shows a value that may be [None]. *)
Definition fmt (o : option string) : string :=
  match o with
  | Some s => s
  | None => "None"
  end.

(** A [for] loop that threads an accumulator through an effectful body. *)
Fixpoint for_fold {A S : Type} (body : S -> A -> M S) (l : list A) (s : S) : M S :=
  match l with
  | [] => ret s
  | a :: l' => s' <- body s a ;; for_fold body l' s'
  end.

(** [enumerate(l)], counting from [i]. *)
Fixpoint enumerate_from {A : Type} (i : nat) (l : list A) : list (nat * A) :=
  match l with
  | [] => []
  | a :: l' => (i, a) :: enumerate_from (S i) l'
  end.

(** ** The operations of the script *)

Section Script.

(** [re.findall] on a compiled pattern with at most one group: the list
    of the captured strings. *)
Variable re_findall : rx -> string -> list string.

Variable env : Env.

(** The registry: the script's global [PROVIDERS], in insertion order.
    The operations are written over any registry and used at
    [PROVIDERS]. *)
Variable providers : list (string * Body).

(** [re.findall(p.get(key, ''), s)]: without the key the pattern is the
    empty string, which matches, emptily, at every position of [s]. *)
Definition findall_get (r : option rx) (s : string) : list string :=
  match r with
  | Some r => re_findall r s
  | None => repeat EmptyString (S (String.length s))
  end.

Definition download_html (url : string) : M string :=
  emit (EvPage url) ;;
  match urlopen env url with
  | Body_ html => ret html
  | Failed e =>
      print (nl +++ "Error downloading main page from " +++ url +++ ": " +++ e) ;;
      sys_exit 1
  end.

Definition prepare_phrase (phrase : string) : string :=
  let phrase := replace phrase " " "+" in
  let phrase := replace phrase "/" "+" in
  phrase.

(** The inner loop of [search], over [enumerate(links)]. *)
Definition search_links (prepend : string) (titles : list string)
  (results : list (string * string)) (links : list string) : list (string * string) :=
  fold_left
    (fun results il =>
       let '(i, l) := il in
       if String.eqb l "" then results
       else
         let l := prepend +++ l in
         let t := slist titles (Z.of_nat i) "<ERROR>" in
         let t := sub_refs t in
         results ++ [(l, t)])
    (enumerate_from 0 links) results.

Definition search_provider (phrase : string) (results : list (string * string))
  (entry : string * Body) : M (list (string * string)) :=
  let '(pr, body) := entry in
  let prepend := match slinks_prepend body with Some s => s | None => "" end in
  match search_url body, rx_slinks body, rx_stitles body with
  | Some search, Some rx_slinks, Some rx_stitles =>
      let search := replace search "%q" phrase in
      html <- download_html search ;;
      let links := re_findall rx_slinks html in
      let titles := re_findall rx_stitles html in
      ret (search_links prepend titles results links)
  | _, _, _ => ret results
  end.

Definition search (phrase : string) : M (list (string * string)) :=
  let phrase := prepare_phrase phrase in
  results <- for_fold (search_provider phrase) providers [] ;;
  (if Nat.eqb (List.length results) 0 then print "No matching audiobooks found!"
   else
     print ("Found " +++ str (List.length results) +++ " matching audiobooks:" +++ nl) ;;
     for_fold (fun _ r => print (snd r +++ "  ---->" +++ fst r)) results tt) ;;
  ret results.

(** The first loop of [create_manifest]: the bodies of the matching
    entries, an alias replaced by what the registry holds under the
    aliased key ([None] when it holds nothing). *)
Definition select_patterns (url : string) : list (option Body) :=
  fold_left
    (fun patterns entry =>
       let '(pr, body) := entry in
       let body := match copy_from body with
                   | Some key => dict_get providers key
                   | None => Some body
                   end in
       if startswith url pr then patterns ++ [body] else patterns)
    providers [].

(** The resource URL of a fragment; [None] is the [continue] taken on an
    empty extracted href. *)
Definition chapter_href (p : Body) (ch : string) : option string :=
  match rx_href p with
  | None => Some ch
  | Some r =>
      let ch_href := slist (re_findall r ch) 0 "" in
      if String.eqb ch_href "" then None else Some ch_href
  end.

Definition chapter_title (p : Body) (ch ch_href : string) : string :=
  match title_from_href p with
  | Some true =>
      let ch_title := slist (split ch_href "/") (-1) "" in
      slist (split ch_title ".") 0 ""
  | _ =>
      match rx_title p with
      | None => ""
      | Some r => slist (re_findall r ch) 0 ""
      end
  end.

Definition get_ext (p : Body) : string :=
  match ext p with
  | Some e => e
  | None => "unknown"
  end.

(** One turn of the loop over the fragments, on the manifest and the
    counter [i]. *)
Definition chapter_step (p : Body) (st : Manifest * nat) (ch : string) : Manifest * nat :=
  let '(manifest, i) := st in
  match chapter_href p ch with
  | None => (manifest, i)
  | Some ch_href =>
      let ch_title := chapter_title p ch ch_href in
      let i := i + 1 in
      if String.eqb ch_title "" then
        let basename := "Part " +++ zfill 3 (str i) +++ "." +++ get_ext p in
        let ch_title := basename in
        (dict_set manifest basename (mkItem ch_href ch_title None None), i)
      else
        let basename := ch_title +++ " (" +++ zfill 3 (str i) +++ ")." +++ get_ext p in
        (dict_set manifest basename (mkItem ch_href ch_title None None), i)
  end.

(** One turn of the loop over the patterns; a [None] among them makes
    [p.get] raise, which [None] as the state records. *)
Definition pattern_step (html : string) (st : option (Manifest * nat)) (p : option Body)
  : option (Manifest * nat) :=
  match st, p with
  | Some st, Some p => Some (fold_left (chapter_step p) (findall_get (rx_chapters p) html) st)
  | _, _ => None
  end.

Definition build_manifest (html : string) (patterns : list (option Body)) : option Manifest :=
  option_map fst (fold_left (pattern_step html) patterns (Some ([], 0))).

Definition create_manifest (url : string) : M Manifest :=
  let patterns := select_patterns url in
  match patterns with
  | [] => print "Provider not supported. Aborting..." ;; sys_exit 1
  | _ =>
      html <- download_html url ;;
      match build_manifest html patterns with
      | Some manifest => ret manifest
      | None => raise "AttributeError"
      end
  end.

(** The body of the loop of [download_ress], returning the entry as the
    loop leaves it. *)
Definition download_entry (output_dir : string) (dry_run : bool) (entry : string * Item)
  : M (string * Item) :=
  let '(basename, item) := entry in
  let item := set_downloaded false item in
  if String.eqb (href item) "" then
    print ("Empty URL for " +++ basename +++ ". Ignoring...") ;;
    ret (basename, item)
  else
    let file := output_dir +++ "/" +++ basename in
    let item := set_file file item in
    if dry_run then
      print (file +++ ":  <--- " +++ href item) ;;
      ret (basename, item)
    else
      print (nl +++ "Downloading: " +++ href item) ;;
      is_file <- isfile file ;;
      is_dir <- isdir file ;;
      if is_file || is_dir then
        print ("File " +++ file +++ " already exists! Ignoring...") ;;
        ret (basename, item)
      else
        emit (EvFetch basename (href item)) ;;
        match urlopen env (href item) with
        | Failed e =>
            print (nl +++ "Error downloading " +++ href item +++ ": " +++ e +++ nl +++ nl) ;;
            ret (basename, item)
        | Body_ data =>
            emit (EvWrite basename file) ;;
            match open_error env file with
            | Some e =>
                print (nl +++ "Error downloading " +++ href item +++ ": " +++ e +++ nl +++ nl) ;;
                ret (basename, item)
            | None =>
                write_file (audio_title env) file data ;;
                print "Done..." ;;
                ret (basename, set_downloaded true item)
            end
        end.

Definition download_ress (manifest : Manifest) (output_dir : string) (dry_run : bool)
  : M Manifest :=
  is_dir <- isdir output_dir ;;
  if negb is_dir then
    print "Target directory does not exist! Aborting..." ;;
    sys_exit 1
  else for_each (download_entry output_dir dry_run) manifest.

(** The text one entry adds to the playlist. *)
Definition pls_entry (i : nat) (entry : string * Item) : string :=
  let '(basename, item) := entry in
  let item := title item in
  "File" +++ str i +++ "=" +++ basename +++ nl
  +++ "Title" +++ str i +++ "=" +++ item +++ nl +++ nl.

Fixpoint pls_loop (pls : string) (i : nat) (manifest : Manifest) : string :=
  match manifest with
  | [] => pls
  | entry :: manifest' => pls_loop (pls +++ pls_entry i entry) (i + 1) manifest'
  end.

Definition pls_text (manifest : Manifest) : string :=
  pls_loop ("[playlist]" +++ nl +++ nl) 1 manifest.

(** [gen_playlist] returns 1, 0 or nothing.  With a format other than
    [pls] the text is never bound, and writing it raises after the file
    was opened. *)
Definition gen_playlist (manifest : Manifest) (output_dir format : string) (dry_run : bool)
  : M (option Z) :=
  let file := output_dir +++ "/playlist." +++ format in
  let pls := if String.eqb format "pls" then Some (pls_text manifest) else None in
  is_file <- isfile file ;;
  is_dir <- isdir file ;;
  if is_file || is_dir then
    print (nl +++ nl +++ "File " +++ file +++ " already exists! Ignoring...") ;;
    ret (Some 1%Z)
  else if dry_run then
    print ("Playlist saved to " +++ file +++ "...") ;;
    ret (Some 0%Z)
  else
    emit (EvPlaylist file) ;;
    match open_error env file with
    | Some e =>
        print (nl +++ "Error wriring to " +++ file +++ ": " +++ e +++ nl +++ nl) ;;
        ret None
    | None =>
        match pls with
        | Some text =>
            write_file (fun _ => None) file text ;;
            print ("Playlist saved to " +++ file +++ "...") ;;
            ret None
        | None =>
            write_file (fun _ => None) file "" ;;
            raise "UnboundLocalError"
        end
    end.

(** The body of the loop of [retag]. *)
Definition retag_entry (entry : string * Item) : M unit :=
  let '(basename, item) := entry in
  let file := file item in
  emit (EvLoad basename file) ;;
  loaded <- load_title file ;;
  match loaded, file with
  | Some title_tag, Some path =>
      if negb (contains (title item) (scast (Some title_tag) (fun v => Some v) "")) then
        let new_title := title_tag +++ " " +++ title item in
        emit (EvSave basename path new_title) ;;
        match save_error env path with
        | Some e => print (nl +++ "Error tagging " +++ fmt file +++ ": " +++ e)
        | None =>
            set_tag path new_title ;;
            print ("File " +++ path +++ ": Title tag changed to " +++ dq +++ new_title +++ dq)
        end
      else ret tt
  | _, _ => print (nl +++ "Error tagging " +++ fmt file +++ ": " +++ load_error env file)
  end.

Definition retag (manifest : Manifest) : M unit :=
  for_fold (fun _ entry => retag_entry entry) manifest tt.

Definition process (url : string) (dry_run : bool) (output_dir : string)
  (playlist : bool) (pl_format : string) (no_tag : bool) : M unit :=
  manifest <- create_manifest url ;;
  manifest <- download_ress manifest output_dir dry_run ;;
  (if playlist then gen_playlist manifest output_dir pl_format dry_run ;; ret tt
   else ret tt) ;;
  (if negb no_tag && negb dry_run then retag manifest else ret tt).

End Script.

(** ** The specification's wording, as definitions to compare with *)

Section Specification.

Variable re_findall : rx -> string -> list string.
Variable env : Env.

(** The filename rule of the specification, for ordinal [i]. *)
Definition spec_filename (extension : string) (i : nat) (derived_title : string) : string :=
  if String.eqb derived_title ""
  then "Part " +++ zfill 3 (str i) +++ "." +++ extension
  else derived_title +++ " (" +++ zfill 3 (str i) +++ ")." +++ extension.

(** The counter as the specification words it: it advances for every
    candidate fragment, skipped or not. *)
Definition spec_chapter_step (p : Body) (st : Manifest * nat) (ch : string) : Manifest * nat :=
  let '(manifest, i) := st in
  let i := i + 1 in
  match chapter_href re_findall p ch with
  | None => (manifest, i)
  | Some ch_href =>
      let t := chapter_title re_findall p ch ch_href in
      let basename := spec_filename (get_ext p) i t in
      (dict_set manifest basename
         (mkItem ch_href (if String.eqb t "" then basename else t) None None), i)
  end.

Definition spec_build_manifest (html : string) (patterns : list Body) : Manifest :=
  fst (fold_left
         (fun st p => fold_left (spec_chapter_step p) (findall_get re_findall (rx_chapters p) html) st)
         patterns ([], 0)).

(** The candidates of a rule that yield an entry, in document order:
    the rule, the resource URL and the derived title. *)
Definition kept_of (p : Body) (chapters : list string) : list (Body * string * string) :=
  flat_map
    (fun ch => match chapter_href re_findall p ch with
               | Some h => [(p, h, chapter_title re_findall p ch h)]
               | None => []
               end)
    chapters.

Definition kept_candidates (html : string) (p : Body) : list (Body * string * string) :=
  kept_of p (findall_get re_findall (rx_chapters p) html).

Definition entry_of (ic : nat * (Body * string * string)) : string * Item :=
  let '(i, (p, h, t)) := ic in
  let basename := spec_filename (get_ext p) i t in
  (basename, mkItem h (if String.eqb t "" then basename else t) None None).

(** The entries of the manifest before insertion: the kept candidates of
    all the rules, numbered from 1 without gaps. *)
Definition numbered_entries (html : string) (patterns : list Body) : list (string * Item) :=
  map entry_of (enumerate_from 1 (flat_map (kept_candidates html) patterns)).

Definition insert_all (entries : list (string * Item)) (manifest : Manifest) : Manifest :=
  fold_left (fun m e => dict_set m (fst e) (snd e)) entries manifest.

(** How the registry entry is resolved before use. *)
Definition resolve (providers : list (string * Body)) (entry : string * Body) : option Body :=
  match copy_from (snd entry) with
  | Some key => dict_get providers key
  | None => Some (snd entry)
  end.

(** Links and titles paired position by position. *)
Fixpoint spec_pair_up (prefix : string) (links titles : list string) : list (string * string) :=
  match links with
  | [] => []
  | l :: links' =>
      (if String.eqb l "" then []
       else [(prefix +++ l, sub_refs (hd "<ERROR>" titles))])
      ++ spec_pair_up prefix links' (tl titles)
  end.

Definition exposes_search (body : Body) : bool :=
  match search_url body, rx_slinks body, rx_stitles body with
  | Some _, Some _, Some _ => true
  | _, _, _ => false
  end.

Definition search_page_url (phrase : string) (body : Body) : string :=
  replace (match search_url body with Some s => s | None => "" end) "%q"
          (prepare_phrase phrase).

Definition page_of (url : string) : string :=
  match urlopen env url with
  | Body_ html => html
  | Failed _ => ""
  end.

Definition fetched (url : string) : bool :=
  match urlopen env url with
  | Body_ _ => true
  | Failed _ => false
  end.

Definition spec_provider_results (phrase : string) (entry : string * Body)
  : list (string * string) :=
  let body := snd entry in
  match rx_slinks body, rx_stitles body with
  | Some rl, Some rt =>
      let html := page_of (search_page_url phrase body) in
      spec_pair_up (match slinks_prepend body with Some s => s | None => "" end)
                   (re_findall rl html) (re_findall rt html)
  | _, _ => []
  end.

Definition spec_search (providers : list (string * Body)) (phrase : string)
  : list (string * string) :=
  flat_map (spec_provider_results phrase)
           (filter (fun entry => exposes_search (snd entry)) providers).

(** The line the dry run prints for an entry. *)
Definition dry_line (output_dir : string) (entry : string * Item) : string :=
  if String.eqb (href (snd entry)) ""
  then "Empty URL for " +++ fst entry +++ ". Ignoring..."
  else output_dir +++ "/" +++ fst entry +++ ":  <--- " +++ href (snd entry).

Definition planned_line (output_dir : string) (entry : string * Item) : string :=
  output_dir +++ "/" +++ fst entry +++ ":  <--- " +++ href (snd entry).

End Specification.

(** Reading a playlist back: the text is cut at every blank line, the
    first block is the header, the last one is empty, and block [n] holds
    the lines [File{n}=...] and [Title{n}=...]. *)
Definition is_nl (c : ascii) : bool := Ascii.eqb c (ascii_of_nat 10).

Definition cons_head (c : ascii) (blocks : list string) : list string :=
  match blocks with
  | [] => [String c EmptyString]
  | b :: bs => String c b :: bs
  end.

Fixpoint split_blocks (s : string) : list string :=
  match s with
  | EmptyString => [EmptyString]
  | String c s' =>
      match s' with
      | String c' s'' =>
          if is_nl c && is_nl c' then EmptyString :: split_blocks s''
          else cons_head c (split_blocks s')
      | EmptyString => [String c EmptyString]
      end
  end.

Fixpoint strip_prefix (p s : string) : option string :=
  match p, s with
  | EmptyString, _ => Some s
  | String a p', String b s' => if Ascii.eqb a b then strip_prefix p' s' else None
  | String _ _, EmptyString => None
  end.

Definition parse_block (n : nat) (block : string) : option (string * string) :=
  match take_until nl true block with
  | Some (line1, line2) =>
      match strip_prefix ("File" +++ str n +++ "=") line1,
            strip_prefix ("Title" +++ str n +++ "=") line2 with
      | Some f, Some t => Some (f, t)
      | _, _ => None
      end
  | None => None
  end.

Fixpoint parse_blocks (n : nat) (blocks : list string) : option (list (string * string)) :=
  match blocks with
  | [] => None
  | [last] => if String.eqb last "" then Some [] else None
  | b :: bs =>
      match parse_block n b, parse_blocks (S n) bs with
      | Some ft, Some rest => Some (ft :: rest)
      | _, _ => None
      end
  end.

Definition parse_pls (text : string) : option (list (string * string)) :=
  match split_blocks text with
  | header :: blocks => if String.eqb header "[playlist]" then parse_blocks 1 blocks else None
  | [] => None
  end.

Definition manifest_pairs (manifest : Manifest) : list (string * string) :=
  map (fun entry => (fst entry, title (snd entry))) manifest.

Fixpoint no_nl (s : string) : bool :=
  match s with
  | EmptyString => true
  | String c s' => negb (is_nl c) && no_nl s'
  end.

Definition line_safe (manifest : Manifest) : bool :=
  forallb (fun entry => no_nl (fst entry) && no_nl (title (snd entry))) manifest.

(** ** Concrete pages, rules and worlds used to run the model *)

Module Demo.

(** A rule in the style of the archive.org entry, with patterns the
    simple engine covers. *)
Definition rule : Body :=
  {| ext := Some "mp3";
     rx_chapters := Some (re_compile "<li>(.*?)</li>" true);
     rx_href := Some (re_compile "href='(.*?)'" true);
     rx_title := Some (re_compile ">(.*?)</a>" false);
     title_from_href := Some false;
     copy_from := None;
     search_url := Some "http://books.example/?s=%q";
     rx_slinks := Some (re_compile "<h2><a href='(.*?)'>" false);
     rx_stitles := Some (re_compile "<b>(.*?)</b>" false);
     slinks_prepend := Some "http://books.example" |}.

Definition alias : Body :=
  {| ext := None; rx_chapters := None; rx_href := None; rx_title := None;
     title_from_href := None;
     copy_from := Some "http://books.example/";
     search_url := None; rx_slinks := None; rx_stitles := None;
     slinks_prepend := None |}.

Definition registry : list (string * Body) :=
  [ ("http://books.example/", rule); ("http://mirror.example/", alias) ].

(** Scenario A: three fragments, all with an href and a title. *)
Definition page_a : string :=
  "<ul><li><a href='http://books.example/f/1.mp3'>Intro</a></li>"
  +++ "<li><a href='http://books.example/f/2.mp3'>Ch1</a></li>"
  +++ "<li><a href='http://books.example/f/3.mp3'>Ch2</a></li></ul>".

(** Scenario B: the first of three fragments has an empty href. *)
Definition page_b : string :=
  "<ul><li><a href=''>Contents</a></li>"
  +++ "<li><a href='http://books.example/f/1.mp3'>Ch1</a></li>"
  +++ "<li><a href='http://books.example/f/2.mp3'>Ch2</a></li></ul>".

(** A page whose only fragment has no title text. *)
Definition page_c : string :=
  "<ul><li><a href='http://books.example/f/1.mp3'></a></li></ul>".

Definition results_page : string :=
  "<h2><a href='/book/1'><b>Tom&#8217;s Cabin</b></a></h2>"
  +++ "<h2><a href=''><b>Hidden</b></a></h2>"
  +++ "<h2><a href='/book/3'>untitled</a></h2>".

Definition net (url : string) : Response :=
  if String.eqb url "http://books.example/a" then Body_ page_a
  else if String.eqb url "http://books.example/b" then Body_ page_b
  else if String.eqb url "http://books.example/c" then Body_ page_c
  else if String.eqb url "http://mirror.example/a" then Body_ page_a
  else if String.eqb url "http://books.example/?s=uncle+tom" then Body_ results_page
  else if String.eqb url "http://books.example/f/1.mp3" then Body_ "AUDIO-1"
  else if String.eqb url "http://books.example/f/2.mp3" then Body_ "AUDIO-2"
  else Failed "HTTP Error 404: Not Found".

Definition env : Env :=
  {| urlopen := net;
     open_error := fun _ => None;
     audio_title := fun _ => Some "Book";
     load_error := fun _ => "unsupported file";
     save_error := fun _ => None |}.

(** An output directory that already holds the first chapter. *)
Definition world : World :=
  {| fs := [ ("out", Dir); ("out/Ch1 (001).mp3", File "OLD-BYTES") ];
     tagdb := [ ("out/Ch1 (001).mp3", "Old title") ];
     stdout := [];
     trace := [] |}.

Definition empty_world : World :=
  {| fs := [ ("out", Dir) ]; tagdb := []; stdout := []; trace := [] |}.

(** A manifest whose first file is already there and whose second
    resource the network does not serve. *)
Definition manifest_rerun : Manifest :=
  [ ("Ch1 (001).mp3", mkItem "http://books.example/f/1.mp3" "Ch1" None None);
    ("Ch9 (002).mp3", mkItem "http://books.example/f/9.mp3" "Ch9" None None) ].

Definition manifest2 : Manifest :=
  [ ("Ch1 (001).mp3", mkItem "http://books.example/f/1.mp3" "Ch1" None None);
    ("Ch2 (002).mp3", mkItem "http://books.example/f/2.mp3" "Ch2" None None) ].

(** Two manifests with the same playlist text. *)
Definition clash_a : Manifest :=
  [ ("a.mp3", mkItem "u" ("A" +++ nl +++ nl +++ "File2=b.mp3" +++ nl +++ "Title2=B") None None) ].

Definition clash_b : Manifest :=
  [ ("a.mp3", mkItem "u" "A" None None); ("b.mp3", mkItem "v" "B" None None) ].

End Demo.

(** ** The command line *)

Definition VERSION : string := "1.0.0".

Definition HELP : string := "

audiobook_download [options] [URLs|PHRASE]

This script downloads MP3 files from provided URLs. It tags them and creates playlist out of them. 
Useful for downloading audiobook chapters from a WWW page

Options:

    --search [PHRASE]   Search for available audiobooks

    --output_dir        To what location should the files be downloaded?

    --pls               Create playlist file in target directory

    --no_tag            Skip retagging. By default, title tag will be updated with chapter titles to 
                        help dispaying and sorting in media players

    --dry_run           No downloading, only file list and hrefs will be displayed to check
                        if everything is in order (e.g. if REGEX found some valid resource URLs)

    --supported         List supported audiobook providers

    --version           Display version
    --help, -h          Display this message


Dependencies:

    This program uses music_tag library. Install it by typing: pip3 install music_tag



".

(** [arg.split(sep, 1)]: the text before the first separator and the text
    after it, or the argument alone when it holds no separator. *)
Definition split_once (arg sep : string) : list string :=
  match take_until sep true arg with
  | Some (before, rest) => [before; rest]
  | None => [arg]
  end.

(** The local variables of [main] that the options set. *)
Record Options : Type := mkOptions {
  opt_output_dir : string;
  opt_dry_run : bool;
  opt_playlist : bool;
  opt_pl_format : option string;
  opt_no_tag : bool
}.

(** How a turn of the loop of [main] ends: the loop goes on, or [break]. *)
Inductive Flow : Type :=
| Next (opts : Options)
| Break.

Section CommandLine.

Variable re_findall : rx -> string -> list string.
Variable env : Env.
Variable providers : list (string * Body).

(** One turn of the loop over [enumerate(sys.argv)].  [process] receives
    [pl_format] as the f-string shows it: it is only formatted and
    compared with ['pls'], and [None] is neither. *)
Definition main_arg (argv : list string) (opts : Options) (ia : nat * string) : M Flow :=
  let '(i, arg) := ia in
  if Nat.eqb i 0 then ret (Next opts)
  else if startswith arg "--output_dir=" then
    let args := split_once arg "=" in
    if Nat.ltb 1 (List.length args)
    then ret (Next (mkOptions (nth 1 args "") (opt_dry_run opts) (opt_playlist opts)
                              (opt_pl_format opts) (opt_no_tag opts)))
    else ret (Next opts)
  else if String.eqb arg "--version" then print VERSION ;; ret (Next opts)
  else if String.eqb arg "--help" || String.eqb arg "-h" then print HELP ;; ret (Next opts)
  else if String.eqb arg "--supported" then
    for_fold (fun _ s => print s) (map fst providers) tt ;; ret (Next opts)
  else if String.eqb arg "--search" then
    let phrase := slist argv (Z.of_nat i + 1) "" in
    if String.eqb phrase "" then print "No search phrase given!" ;; ret Break
    else search re_findall env providers phrase ;; ret Break
  else if String.eqb arg "--dry_run" then
    ret (Next (mkOptions (opt_output_dir opts) true (opt_playlist opts)
                         (opt_pl_format opts) (opt_no_tag opts)))
  else if String.eqb arg "--no_tag" then
    ret (Next (mkOptions (opt_output_dir opts) (opt_dry_run opts) (opt_playlist opts)
                         (opt_pl_format opts) true))
  else if String.eqb arg "--pls" then
    ret (Next (mkOptions (opt_output_dir opts) (opt_dry_run opts) true
                         (Some "pls") (opt_no_tag opts)))
  else
    process re_findall env providers arg (opt_dry_run opts) (opt_output_dir opts)
            (opt_playlist opts) (fmt (opt_pl_format opts)) (opt_no_tag opts) ;;
    ret (Next opts).

Fixpoint main_loop (argv : list string) (opts : Options) (rest : list (nat * string))
  : M unit :=
  match rest with
  | [] => ret tt
  | ia :: rest' =>
      flow <- main_arg argv opts ia ;;
      match flow with
      | Next opts' => main_loop argv opts' rest'
      | Break => ret tt
      end
  end.

(** [main], with [os.getcwd()] and [sys.argv] as arguments. *)
Definition main (cwd : string) (argv : list string) : M unit :=
  let opts := mkOptions cwd false false None false in
  if Nat.ltb 1 (List.length argv) then main_loop argv opts (enumerate_from 0 argv)
  else ret tt.

End CommandLine.

(** ** Definitions used to state the properties *)

(** The two shapes an entry can have: filed under [Part ...] with the
    filename as its title, or filed under its own non-empty title. *)
Definition entry_shaped (kv : string * Item) : Prop :=
  (exists i e, fst kv = "Part " +++ zfill 3 (str i) +++ "." +++ e
               /\ title (snd kv) = fst kv)
  \/ (title (snd kv) <> ""
      /\ exists i e, fst kv = title (snd kv) +++ " (" +++ zfill 3 (str i) +++ ")." +++ e).

Definition all_shaped (m : Manifest) : Prop := forall kv, In kv m -> entry_shaped kv.

Definition matches (url : string) (entry : string * Body) : bool :=
  startswith url (fst entry).

Definition printed (line : string) (w : World) : World :=
  mkWorld (fs w) (tagdb w) (stdout w ++ [line]) (trace w).

Definition traced (ev : Event) (w : World) : World :=
  mkWorld (fs w) (tagdb w) (stdout w) (trace w ++ [ev]).

(** The lines of one entry, without the blank line that ends them. *)
Definition block_of (ie : nat * (string * Item)) : string :=
  "File" +++ str (fst ie) +++ "=" +++ fst (snd ie) +++ nl
  +++ "Title" +++ str (fst ie) +++ "=" +++ title (snd (snd ie)).

(** The body of the playlist, entry [n] first. *)
Fixpoint pls_blocks (n : nat) (manifest : Manifest) : string :=
  match manifest with
  | [] => ""
  | entry :: manifest' => block_of (n, entry) +++ nl +++ nl +++ pls_blocks (S n) manifest'
  end.

(** A block that cutting at blank lines leaves whole: each of its line
    feeds is followed by another character, which is not a line feed. *)
Fixpoint block_ok (b : string) : bool :=
  match b with
  | EmptyString => true
  | String c b' =>
      (if is_nl c
       then match b' with
            | EmptyString => false
            | String c' _ => negb (is_nl c')
            end
       else true)
      && block_ok b'
  end.

(** The title tags after the loop body of [retag] ran on an entry. *)
Definition retag_db (env : Env) (db : list (string * string)) (entry : string * Item)
  : list (string * string) :=
  match file (snd entry) with
  | Some path =>
      match dict_get db path with
      | Some old =>
          if contains (title (snd entry)) old then db
          else match save_error env path with
               | None => dict_set db path (old +++ " " +++ title (snd entry))
               | Some _ => db
               end
      | None => db
      end
  | None => db
  end.

(** The entry asks for no change of the tags [db]: where its file can be
    loaded and saved, the tag already holds its title. *)
Definition settled (env : Env) (db : list (string * string)) (entry : string * Item) : Prop :=
  forall path old,
    file (snd entry) = Some path ->
    dict_get db path = Some old ->
    save_error env path = None ->
    contains (title (snd entry)) old = true.

(** Tags only grow at their end, and no file appears or disappears. *)
Definition grows (db db' : list (string * string)) : Prop :=
  forall path,
    match dict_get db path with
    | Some old => exists x, dict_get db' path = Some (old +++ x)
    | None => dict_get db' path = None
    end.

(** The load calls of a trace, in order. *)
Definition loads (tr : list Event) : list (string * option string) :=
  flat_map (fun ev => match ev with
                      | EvLoad k path => [(k, path)]
                      | _ => []
                      end) tr.

Fixpoint lacks (c : ascii) (s : string) : bool :=
  match s with
  | EmptyString => true
  | String x s' => negb (Ascii.eqb x c) && lacks c s'
  end.

Definition has_search_template (body : Body) : bool :=
  match search_url body with
  | Some _ => true
  | None => false
  end.

(** The page fetches of a search, in order. *)
Definition search_events (providers : list (string * Body)) (phrase : string) : list Event :=
  map (fun entry => EvPage (search_page_url phrase (snd entry)))
      (filter (fun entry => exposes_search (snd entry)) providers).


(** An operation keeps a relation between the world it starts in and
    the world it ends in, however it ends. *)
Definition keeps {A : Type} (R : World -> World -> Prop) (m : M A) : Prop :=
  forall w, R w (result_world (m w)).

(** Neither a file nor a title tag has changed. *)
Definition same_store (w w' : World) : Prop :=
  fs w' = fs w /\ tagdb w' = tagdb w.

(** Every event of the trace at the end was there at the start or is of
    the kind [allowed]. *)
Definition adds_only (allowed : Event -> bool) (w w' : World) : Prop :=
  forall ev, In ev (trace w') -> In ev (trace w) \/ allowed ev = true.

Definition is_page (ev : Event) : bool :=
  match ev with
  | EvPage _ => true
  | _ => false
  end.

Definition is_tag_call (ev : Event) : bool :=
  match ev with
  | EvLoad _ _ | EvSave _ _ _ => true
  | _ => false
  end.

(** Nothing was done but printing and fetching pages. *)
Definition quiet (w w' : World) : Prop :=
  same_store w w' /\ adds_only is_page w w'.

(** * Properties *)

(** ** Strings *)

Lemma append_nil_r (s : string) : s +++ "" = s.
Proof. induction s as [|c s IH]; simpl; [reflexivity | now rewrite IH]. Qed.

Lemma append_assoc (a b c : string) : (a +++ b) +++ c = a +++ (b +++ c).
Proof. induction a as [|x a IH]; simpl; [reflexivity | now rewrite IH]. Qed.

Lemma length_append (a b : string) :
  String.length (a +++ b) = String.length a + String.length b.
Proof. induction a as [|x a IH]; simpl; [reflexivity | now rewrite IH]. Qed.

Lemma zeros_length (n : nat) : String.length (zeros n) = n.
Proof. induction n as [|n IH]; simpl; [reflexivity | now rewrite IH]. Qed.

Lemma zfill_length (width : nat) (s : string) :
  String.length (zfill width s) = Nat.max width (String.length s).
Proof. unfold zfill. rewrite length_append, zeros_length. lia. Qed.

Lemma prefix_refl_app (a b : string) : String.prefix a (a +++ b) = true.
Proof.
  induction a as [|x a IH]; simpl.
  - now destruct b.
  - destruct (ascii_dec x x) as [_|n]; [exact IH | now elim n].
Qed.

Lemma prefix_app_r (a b c : string) :
  String.prefix a b = true -> String.prefix a (b +++ c) = true.
Proof.
  revert a. induction b as [|y b IH]; intros a H.
  - destruct a; [now destruct c | discriminate].
  - destruct a as [|x a]; [reflexivity |]. simpl in *.
    destruct (ascii_dec x y); [now apply IH | discriminate].
Qed.

Lemma contains_app_r (t a b : string) :
  contains t a = true -> contains t (a +++ b) = true.
Proof.
  induction a as [|x a IH]; intros H.
  - simpl in H. rewrite orb_false_r in H.
    destruct t; [| discriminate]. now destruct b.
  - simpl in H. apply orb_true_iff in H. simpl. apply orb_true_iff.
    destruct H as [H|H].
    + left. now apply (prefix_app_r t (String x a) b).
    + right. now apply IH.
Qed.

Lemma contains_app_l (t a b : string) :
  contains t b = true -> contains t (a +++ b) = true.
Proof.
  intros H. induction a as [|x a IH]; [exact H |].
  simpl. rewrite IH. apply orb_true_r.
Qed.

Lemma contains_refl (t : string) : contains t t = true.
Proof.
  destruct t as [|x t]; [reflexivity |].
  cbn [contains]. apply orb_true_iff. left.
  rewrite <- (append_nil_r (String x t)) at 2. apply prefix_refl_app.
Qed.

Lemma contains_joined (old t : string) : contains t (old +++ " " +++ t) = true.
Proof.
  apply contains_app_l. change (" " +++ t) with (String " " t).
  cbn [contains]. rewrite contains_refl. apply orb_true_r.
Qed.

(** ** Dictionaries *)

Lemma dict_set_in {V : Type} (d : list (string * V)) (key : string) (v : V) (kv : string * V) :
  In kv (dict_set d key v) -> kv = (key, v) \/ In kv d.
Proof.
  induction d as [|[k v0] d IH]; simpl.
  - intros [H|[]]. now left.
  - destruct (String.eqb_spec k key) as [->|Hne]; simpl.
    + intros [H|H]; [now left | now right; right].
    + intros [H|H]; [now right; left |].
      destruct (IH H) as [E|E]; [now left | now right; right].
Qed.

Lemma dict_get_set_same {V : Type} (d : list (string * V)) (key : string) (v : V) :
  dict_get (dict_set d key v) key = Some v.
Proof.
  induction d as [|[k v0] d IH]; simpl.
  - now rewrite String.eqb_refl.
  - destruct (String.eqb_spec k key) as [->|Hne]; simpl.
    + now rewrite String.eqb_refl.
    + destruct (String.eqb_spec k key); [contradiction | exact IH].
Qed.

Lemma dict_get_set_other {V : Type} (d : list (string * V)) (key key' : string) (v : V) :
  key <> key' -> dict_get (dict_set d key v) key' = dict_get d key'.
Proof.
  intros Hne. induction d as [|[k v0] d IH]; simpl.
  - destruct (String.eqb_spec key key'); [contradiction | reflexivity].
  - destruct (String.eqb_spec k key) as [->|Hk]; simpl.
    + destruct (String.eqb_spec key key'); [contradiction | reflexivity].
    + now rewrite IH.
Qed.

Lemma dict_get_del_other {V : Type} (d : list (string * V)) (key key' : string) :
  key <> key' -> dict_get (dict_del d key) key' = dict_get d key'.
Proof.
  intros Hne. induction d as [|[k v0] d IH]; simpl; [reflexivity |].
  destruct (String.eqb_spec k key) as [->|Hk]; simpl.
  - rewrite IH. destruct (String.eqb_spec key key'); [contradiction | reflexivity].
  - now rewrite IH.
Qed.

Lemma enumerate_from_app {A : Type} (i : nat) (a b : list A) :
  enumerate_from i (a ++ b) = enumerate_from i a ++ enumerate_from (i + List.length a) b.
Proof.
  revert i. induction a as [|x a IH]; intros i; simpl.
  - now rewrite Nat.add_0_r.
  - rewrite IH. now rewrite Nat.add_succ_r.
Qed.

(** ** The manifest builder *)

Section Builder.

Variable re_findall : rx -> string -> list string.

(** The loop body against the filename rule. *)
Lemma chapter_step_unfold (p : Body) (m : Manifest) (i : nat) (ch : string) :
  chapter_step re_findall p (m, i) ch =
  match chapter_href re_findall p ch with
  | None => (m, i)
  | Some h =>
      let t := chapter_title re_findall p ch h in
      let basename := spec_filename (get_ext p) (i + 1) t in
      (dict_set m basename (mkItem h (if String.eqb t "" then basename else t) None None),
       i + 1)
  end.
Proof.
  unfold chapter_step, spec_filename.
  destruct (chapter_href re_findall p ch) as [h|]; [| reflexivity].
  cbv zeta. destruct (String.eqb (chapter_title re_findall p ch h) ""); reflexivity.
Qed.

Lemma insert_all_app (a b : list (string * Item)) (m : Manifest) :
  insert_all (a ++ b) m = insert_all b (insert_all a m).
Proof. unfold insert_all. apply fold_left_app. Qed.

Lemma fold_chapter_steps (p : Body) (chs : list string) (m : Manifest) (i : nat) :
  fold_left (chapter_step re_findall p) chs (m, i) =
  (insert_all (map entry_of (enumerate_from (i + 1) (kept_of re_findall p chs))) m,
   i + List.length (kept_of re_findall p chs)).
Proof.
  revert m i. induction chs as [|ch chs IH]; intros m i.
  - simpl. now rewrite Nat.add_0_r.
  - cbn [fold_left]. rewrite chapter_step_unfold.
    unfold kept_of. cbn [flat_map]. fold (kept_of re_findall p chs).
    destruct (chapter_href re_findall p ch) as [h|].
    + cbv zeta. rewrite IH. cbn [app enumerate_from map List.length].
      replace (i + 1 + 1) with (S (i + 1)) by lia.
      f_equal. lia.
    + rewrite IH. reflexivity.
Qed.

Lemma fold_pattern_steps (html : string) (ps : list Body) (m : Manifest) (i : nat) :
  fold_left (pattern_step re_findall html) (map Some ps) (Some (m, i)) =
  Some (insert_all
          (map entry_of
               (enumerate_from (i + 1) (flat_map (kept_candidates re_findall html) ps))) m,
        i + List.length (flat_map (kept_candidates re_findall html) ps)).
Proof.
  revert m i. induction ps as [|p ps IH]; intros m i.
  - simpl. now rewrite Nat.add_0_r.
  - cbn [map fold_left pattern_step flat_map]. rewrite fold_chapter_steps, IH.
    fold (kept_candidates re_findall html p).
    rewrite enumerate_from_app, map_app, insert_all_app, length_app.
    replace (i + List.length (kept_candidates re_findall html p) + 1)
      with (i + 1 + List.length (kept_candidates re_findall html p)) by lia.
    do 2 f_equal. lia.
Qed.

Lemma build_manifest_entries (html : string) (ps : list Body) :
  build_manifest re_findall html (map Some ps)
  = Some (insert_all (numbered_entries re_findall html ps) []).
Proof.
  unfold build_manifest. rewrite fold_pattern_steps. reflexivity.
Qed.

(** C1, as the code has it: the counter moves only when a candidate is
    kept.  A fragment whose extracted href is empty leaves the counter
    where it was, so the k-th kept candidate carries ordinal k: the
    manifest is the insertion, in order, of the kept candidates of all the
    rules numbered from 1 without gaps; a page that keeps two candidates
    gives them the ordinals 1 and 2 wherever the skipped fragment
    stood. *)
Theorem C1_ordinal_counts_kept_candidates :
  (forall (p : Body) (m : Manifest) (i : nat) (ch : string),
      snd (chapter_step re_findall p (m, i) ch)
      = match chapter_href re_findall p ch with
        | None => i
        | Some _ => i + 1
        end)
  /\ (forall (html : string) (ps : list Body),
         build_manifest re_findall html (map Some ps)
         = Some (insert_all (numbered_entries re_findall html ps) []))
  /\ (forall (html : string) (p : Body) (c1 c2 : Body * string * string),
         kept_candidates re_findall html p = [c1; c2] ->
         build_manifest re_findall html [Some p]
         = Some (insert_all [entry_of (1, c1); entry_of (2, c2)] [])).
Proof.
  split; [| split].
  - intros p m i ch. rewrite chapter_step_unfold.
    now destruct (chapter_href re_findall p ch).
  - exact build_manifest_entries.
  - intros html p c1 c2 H.
    change [Some p] with (map Some [p]). rewrite build_manifest_entries.
    unfold numbered_entries. cbn [flat_map]. rewrite app_nil_r, H. reflexivity.
Qed.

(** C2: a kept candidate is filed under [Part {i:03}.{ext}] when its
    derived title is empty and under [{title} ({i:03}).{ext}] otherwise,
    [i] being the counter after its increment, padded with zeros to three
    characters, and [ext] the rule's extension; three fragments titled
    Intro, Ch1 and Ch2 under an mp3 rule give [Intro (001).mp3],
    [Ch1 (002).mp3] and [Ch2 (003).mp3]. *)
Theorem C2_filename_derivation :
  (forall (p : Body) (m : Manifest) (i : nat) (ch : string),
      chapter_step re_findall p (m, i) ch
      = match chapter_href re_findall p ch with
        | None => (m, i)
        | Some h =>
            let t := chapter_title re_findall p ch h in
            let basename := if String.eqb t ""
                            then "Part " +++ zfill 3 (str (i + 1)) +++ "." +++ get_ext p
                            else t +++ " (" +++ zfill 3 (str (i + 1)) +++ ")." +++ get_ext p in
            (dict_set m basename
               (mkItem h (if String.eqb t "" then basename else t) None None), i + 1)
        end)
  /\ (forall (p : Body) (e : string), ext p = Some e -> get_ext p = e)
  /\ (forall i : nat,
         zfill 3 (str i) = zeros (3 - String.length (str i)) +++ str i
         /\ String.length (zfill 3 (str i)) = Nat.max 3 (String.length (str i)))
  /\ (zfill 3 (str 7) = "007" /\ zfill 3 (str 42) = "042"
      /\ zfill 3 (str 123) = "123" /\ zfill 3 (str 1234) = "1234")
  /\ (forall (p : Body) (html f1 f2 f3 h1 h2 h3 : string),
         ext p = Some "mp3" ->
         findall_get re_findall (rx_chapters p) html = [f1; f2; f3] ->
         chapter_href re_findall p f1 = Some h1 ->
         chapter_href re_findall p f2 = Some h2 ->
         chapter_href re_findall p f3 = Some h3 ->
         chapter_title re_findall p f1 h1 = "Intro" ->
         chapter_title re_findall p f2 h2 = "Ch1" ->
         chapter_title re_findall p f3 h3 = "Ch2" ->
         build_manifest re_findall html [Some p]
         = Some [ ("Intro (001).mp3", mkItem h1 "Intro" None None);
                  ("Ch1 (002).mp3", mkItem h2 "Ch1" None None);
                  ("Ch2 (003).mp3", mkItem h3 "Ch2" None None) ]).
Proof.
  split; [| split; [| split; [| split]]].
  - intros p m i ch. rewrite chapter_step_unfold. unfold spec_filename.
    destruct (chapter_href re_findall p ch) as [h|]; [| reflexivity].
    cbv zeta. destruct (String.eqb (chapter_title re_findall p ch h) ""); reflexivity.
  - intros p e H. unfold get_ext. now rewrite H.
  - intros i. split; [reflexivity | apply zfill_length].
  - now vm_compute.
  - intros p html f1 f2 f3 h1 h2 h3 He Hf H1 H2 H3 T1 T2 T3.
    unfold build_manifest. cbn [fold_left pattern_step option_map].
    rewrite Hf. cbn [fold_left].
    rewrite chapter_step_unfold, H1. cbv zeta.
    rewrite chapter_step_unfold, H2. cbv zeta.
    rewrite chapter_step_unfold, H3. cbv zeta.
    rewrite T1, T2, T3. unfold get_ext. rewrite He.
    reflexivity.
Qed.

End Builder.

(** C1, the claim as the specification words it, refuted on a page of
    three fragments whose first has an empty href: the survivors are
    numbered 1 and 2, not 2 and 3. *)
Lemma C1_counterexample :
  List.length (findall_get simple_findall (rx_chapters Demo.rule) Demo.page_b) = 3
  /\ option_map (map fst) (build_manifest simple_findall Demo.page_b [Some Demo.rule])
     = Some ["Ch1 (001).mp3"; "Ch2 (002).mp3"]
  /\ map fst (spec_build_manifest simple_findall Demo.page_b [Demo.rule])
     = ["Ch1 (002).mp3"; "Ch2 (003).mp3"]
  /\ build_manifest simple_findall Demo.page_b [Some Demo.rule]
     <> Some (spec_build_manifest simple_findall Demo.page_b [Demo.rule]).
Proof.
  repeat split; try (vm_compute; reflexivity).
  vm_compute. discriminate.
Qed.

Lemma C1_witness :
  kept_candidates simple_findall Demo.page_b Demo.rule
  = [ (Demo.rule, "http://books.example/f/1.mp3", "Ch1");
      (Demo.rule, "http://books.example/f/2.mp3", "Ch2") ]
  /\ build_manifest simple_findall Demo.page_b [Some Demo.rule]
     = Some (insert_all
               [ entry_of (1, (Demo.rule, "http://books.example/f/1.mp3", "Ch1"));
                 entry_of (2, (Demo.rule, "http://books.example/f/2.mp3", "Ch2")) ] []).
Proof.
  split; [vm_compute; reflexivity |].
  apply (proj2 (proj2 (C1_ordinal_counts_kept_candidates simple_findall))).
  vm_compute; reflexivity.
Defined.

Lemma C2_witness :
  build_manifest simple_findall Demo.page_a [Some Demo.rule]
  = Some [ ("Intro (001).mp3", mkItem "http://books.example/f/1.mp3" "Intro" None None);
           ("Ch1 (002).mp3", mkItem "http://books.example/f/2.mp3" "Ch1" None None);
           ("Ch2 (003).mp3", mkItem "http://books.example/f/3.mp3" "Ch2" None None) ].
Proof.
  apply (proj2 (proj2 (proj2 (proj2 (C2_filename_derivation simple_findall)))) Demo.rule
           Demo.page_a
           "<a href='http://books.example/f/1.mp3'>Intro</a>"
           "<a href='http://books.example/f/2.mp3'>Ch1</a>"
           "<a href='http://books.example/f/3.mp3'>Ch2</a>");
    vm_compute; reflexivity.
Defined.

(** ** Titles in the manifest *)

Lemma entry_shaped_titled (kv : string * Item) : entry_shaped kv -> title (snd kv) <> "".
Proof.
  intros [(i & e & Hk & Ht)|[H _]]; [| exact H].
  rewrite Ht, Hk. discriminate.
Qed.

Section Titles.

Variable re_findall : rx -> string -> list string.

Lemma chapter_step_shaped (p : Body) (m : Manifest) (i : nat) (ch : string) :
  all_shaped m -> all_shaped (fst (chapter_step re_findall p (m, i) ch)).
Proof.
  intros Hm. rewrite chapter_step_unfold.
  destruct (chapter_href re_findall p ch) as [h|]; [| exact Hm].
  cbv zeta. cbn [fst]. intros kv Hin.
  apply dict_set_in in Hin. destruct Hin as [->|Hin]; [| now apply Hm].
  unfold entry_shaped, spec_filename. cbn [fst snd title].
  destruct (String.eqb_spec (chapter_title re_findall p ch h) "") as [E|E].
  - left. now exists (i + 1), (get_ext p).
  - right. split; [exact E |]. now exists (i + 1), (get_ext p).
Qed.

Lemma fold_chapter_shaped (p : Body) (chs : list string) (st : Manifest * nat) :
  all_shaped (fst st) -> all_shaped (fst (fold_left (chapter_step re_findall p) chs st)).
Proof.
  revert st. induction chs as [|ch chs IH]; intros [m i] H; [exact H |].
  cbn [fold_left]. apply IH. now apply chapter_step_shaped.
Qed.

Lemma fold_pattern_shaped (html : string) (ps : list (option Body))
  (st : option (Manifest * nat)) (r : Manifest * nat) :
  (forall st0, st = Some st0 -> all_shaped (fst st0)) ->
  fold_left (pattern_step re_findall html) ps st = Some r ->
  all_shaped (fst r).
Proof.
  revert st. induction ps as [|p ps IH]; intros st Hst Hr.
  - simpl in Hr. now apply Hst.
  - cbn [fold_left] in Hr. refine (IH _ _ Hr).
    intros st0 E. destruct st as [st1|]; [| discriminate].
    destruct p as [p|]; [| discriminate].
    cbn [pattern_step] in E. injection E as <-.
    apply fold_chapter_shaped. now apply Hst.
Qed.

Lemma build_manifest_shaped (html : string) (ps : list (option Body)) (m : Manifest) :
  build_manifest re_findall html ps = Some m -> all_shaped m.
Proof.
  unfold build_manifest. intros H.
  destruct (fold_left (pattern_step re_findall html) ps (Some ([], 0))) as [r|] eqn:E;
    [| discriminate].
  cbn [option_map] in H. injection H as <-.
  apply (fold_pattern_shaped html ps (Some ([], 0)) r); [| exact E].
  intros st0 E0. injection E0 as <-. intros kv [].
Qed.

End Titles.

(** ** Provider matching *)

Lemma select_fold (reg l : list (string * Body)) (url : string) (acc : list (option Body)) :
  fold_left
    (fun patterns (entry : string * Body) =>
       let '(pr, body) := entry in
       let body := match copy_from body with
                   | Some key => dict_get reg key
                   | None => Some body
                   end in
       if startswith url pr then patterns ++ [body] else patterns)
    l acc
  = acc ++ map (resolve reg) (filter (matches url) l).
Proof.
  revert acc. induction l as [|[pr body] l IH]; intros acc.
  - simpl. now rewrite app_nil_r.
  - cbn [fold_left filter]. rewrite IH. unfold matches at 2. cbn [fst].
    destruct (startswith url pr); [| reflexivity].
    cbn [map]. unfold resolve at 2. cbn [snd].
    now rewrite <- app_assoc.
Qed.

Lemma select_patterns_filter (providers : list (string * Body)) (url : string) :
  select_patterns providers url = map (resolve providers) (filter (matches url) providers).
Proof. unfold select_patterns. now rewrite select_fold. Qed.

Lemma filter_none {A : Type} (f : A -> bool) (l : list A) :
  (forall a, In a l -> f a = false) -> filter f l = [].
Proof.
  induction l as [|a l IH]; intros H; [reflexivity |].
  simpl. rewrite (H a (or_introl eq_refl)). apply IH. intros b Hb. apply H. now right.
Qed.



(** ** Untitled chapters *)

(** C10: a kept candidate whose derived title is empty is stored with its
    generated filename [Part {i:03}.{ext}] as title; hence no entry of a
    built manifest has an empty title, and for such an entry the Title
    line of the playlist and the text the tag pass appends to the title
    tag are the filename itself, ordinal and extension included. *)
Theorem C10_untitled_entry_takes_filename_as_title :
  (forall re_findall (p : Body) (m : Manifest) (i : nat) (ch h : string),
      chapter_href re_findall p ch = Some h ->
      chapter_title re_findall p ch h = "" ->
      chapter_step re_findall p (m, i) ch
      = (dict_set m ("Part " +++ zfill 3 (str (i + 1)) +++ "." +++ get_ext p)
           (mkItem h ("Part " +++ zfill 3 (str (i + 1)) +++ "." +++ get_ext p) None None),
         i + 1))
  /\ (forall re_findall (html : string) (ps : list (option Body)) (m : Manifest),
         build_manifest re_findall html ps = Some m ->
         forall k it, In (k, it) m -> title it <> "" /\ entry_shaped (k, it))
  /\ (forall re_findall env providers (url : string) (w w' : World) (m : Manifest),
         create_manifest re_findall env providers url w = Ok m w' ->
         forall k it, In (k, it) m -> title it <> "")
  /\ (forall (n : nat) (k : string) (it : Item),
         title it = k ->
         pls_entry n (k, it)
         = "File" +++ str n +++ "=" +++ k +++ nl +++ "Title" +++ str n +++ "=" +++ k +++ nl +++ nl)
  /\ (forall env (k path old : string) (it : Item) (w : World),
         title it = k ->
         file it = Some path ->
         dict_get (tagdb w) path = Some old ->
         contains k old = false ->
         save_error env path = None ->
         exists w', retag_entry env (k, it) w = Ok tt w'
                    /\ dict_get (tagdb w') path = Some (old +++ " " +++ k)).
Proof.
  split; [| split; [| split; [| split]]].
  - intros re_findall p m i ch h Hh Ht.
    rewrite chapter_step_unfold, Hh. cbv zeta. rewrite Ht. reflexivity.
  - intros re_findall html ps m H k it Hin.
    pose proof (build_manifest_shaped re_findall html ps m H (k, it) Hin) as Hs.
    split; [exact (entry_shaped_titled (k, it) Hs) | exact Hs].
  - intros re_findall env providers url w w' m H k it Hin.
    unfold create_manifest in H.
    destruct (select_patterns providers url) as [|p ps]; [discriminate |].
    unfold bind, download_html, bind, emit in H.
    destruct (urlopen env url) as [html|e]; [| discriminate].
    unfold ret in H.
    destruct (build_manifest re_findall html (p :: ps)) as [m0|] eqn:E; [| discriminate].
    injection H as <- _.
    exact (entry_shaped_titled (k, it) (build_manifest_shaped re_findall html _ m0 E (k, it) Hin)).
  - intros n k it <-. reflexivity.
  - intros env k path old it w Ht Hf Hg Hc Hs.
    unfold retag_entry, bind, emit, load_title. rewrite Hf. cbn [tagdb].
    rewrite Hg. cbn [scast]. rewrite Ht, Hc. cbn [negb].
    rewrite Hs. unfold set_tag, print. eexists. split; [reflexivity |].
    cbn [tagdb]. apply dict_get_set_same.
Qed.

Lemma C10_witness :
  create_manifest simple_findall Demo.env Demo.registry "http://books.example/c" Demo.empty_world
  = Ok [ ("Part 001.mp3", mkItem "http://books.example/f/1.mp3" "Part 001.mp3" None None) ]
       (traced (EvPage "http://books.example/c") Demo.empty_world)
  /\ title (mkItem "http://books.example/f/1.mp3" "Part 001.mp3" None None) <> ""
  /\ chapter_step simple_findall Demo.rule ([], 0) "<a href='http://books.example/f/1.mp3'></a>"
     = ([ ("Part 001.mp3", mkItem "http://books.example/f/1.mp3" "Part 001.mp3" None None) ], 1).
Proof.
  assert (E : create_manifest simple_findall Demo.env Demo.registry "http://books.example/c"
                Demo.empty_world
              = Ok [ ("Part 001.mp3",
                      mkItem "http://books.example/f/1.mp3" "Part 001.mp3" None None) ]
                   (traced (EvPage "http://books.example/c") Demo.empty_world))
    by (vm_compute; reflexivity).
  split; [exact E | split].
  - apply (proj1 (proj2 (proj2 C10_untitled_entry_takes_filename_as_title))
             simple_findall Demo.env Demo.registry "http://books.example/c"
             Demo.empty_world _ _ E "Part 001.mp3").
    now left.
  - refine (proj1 C10_untitled_entry_takes_filename_as_title simple_findall Demo.rule [] 0
              "<a href='http://books.example/f/1.mp3'></a>" "http://books.example/f/1.mp3" _ _);
      vm_compute; reflexivity.
Defined.

(** ** The playlist *)

Lemma pls_entry_block (n : nat) (entry : string * Item) :
  pls_entry n entry = block_of (n, entry) +++ nl +++ nl.
Proof.
  destruct entry as [k it]. unfold pls_entry, block_of. cbn [fst snd].
  now rewrite !append_assoc.
Qed.

Lemma pls_loop_blocks (m : Manifest) (pls : string) (n : nat) :
  pls_loop pls n m = pls +++ pls_blocks n m.
Proof.
  revert pls n. induction m as [|e m IH]; intros pls n.
  - simpl. now rewrite append_nil_r.
  - cbn [pls_loop pls_blocks]. rewrite IH, pls_entry_block.
    replace (n + 1) with (S n) by lia. now rewrite !append_assoc.
Qed.

Lemma split_blocks_cons (c : ascii) (s' : string) :
  split_blocks (String c s')
  = match s' with
    | String c' s'' =>
        if is_nl c && is_nl c' then "" :: split_blocks s''
        else cons_head c (split_blocks s')
    | EmptyString => [String c ""]
    end.
Proof. now destruct s'. Qed.

Lemma split_blocks_cut (b rest : string) :
  block_ok b = true ->
  split_blocks (b +++ nl +++ nl +++ rest) = b :: split_blocks rest.
Proof.
  induction b as [|c b IH]; intros H.
  - reflexivity.
  - cbn [block_ok] in H. apply andb_true_iff in H. destruct H as [Hc Hb].
    specialize (IH Hb).
    change (String c b +++ nl +++ nl +++ rest) with (String c (b +++ nl +++ nl +++ rest)).
    rewrite split_blocks_cons.
    destruct (b +++ nl +++ nl +++ rest) as [|c' s''] eqn:E.
    + destruct b; discriminate.
    + assert (Hcc : is_nl c && is_nl c' = false).
      { destruct (is_nl c); [| reflexivity].
        destruct b as [|c'' b'']; [discriminate |].
        injection E as -> _. now apply negb_true_iff in Hc. }
      rewrite Hcc, IH. reflexivity.
Qed.

Lemma no_nl_app (a b : string) : no_nl (a +++ b) = no_nl a && no_nl b.
Proof.
  induction a as [|c a IH]; simpl; [reflexivity |].
  rewrite IH. now rewrite andb_assoc.
Qed.

Lemma no_nl_uint (d : Decimal.uint) : no_nl (NilEmpty.string_of_uint d) = true.
Proof. induction d; simpl; auto. Qed.

Lemma no_nl_str (n : nat) : no_nl (str n) = true.
Proof. apply no_nl_uint. Qed.

Lemma no_nl_block_ok (s : string) : no_nl s = true -> block_ok s = true.
Proof.
  induction s as [|c s IH]; [reflexivity |].
  cbn [no_nl block_ok]. intros H. apply andb_true_iff in H. destruct H as [Hc Hs].
  destruct (is_nl c); [discriminate |]. now apply IH.
Qed.

Lemma block_ok_two_lines (a b : string) (c : ascii) :
  no_nl a = true -> no_nl (String c b) = true ->
  block_ok (a +++ nl +++ String c b) = true.
Proof.
  intros Ha Hb. induction a as [|x a IH].
  - change ("" +++ nl +++ String c b) with (String (ascii_of_nat 10) (String c b)).
    cbn [block_ok]. pose proof (no_nl_block_ok _ Hb) as Hok.
    cbn [no_nl] in Hb. apply andb_true_iff in Hb. destruct Hb as [Hc _].
    change (is_nl (ascii_of_nat 10)) with true. cbv iota.
    rewrite Hc. exact Hok.
  - cbn [no_nl] in Ha. apply andb_true_iff in Ha. destruct Ha as [Hx Ha].
    change (String x a +++ nl +++ String c b) with (String x (a +++ nl +++ String c b)).
    cbn [block_ok]. destruct (is_nl x); [discriminate |]. now apply IH.
Qed.

Lemma take_until_line (a b : string) :
  no_nl a = true -> take_until nl true (a +++ nl +++ b) = Some (a, b).
Proof.
  intros Ha. induction a as [|x a IH].
  - now destruct b.
  - cbn [no_nl] in Ha. apply andb_true_iff in Ha. destruct Ha as [Hx Ha].
    change (String x a +++ nl +++ b) with (String x (a +++ nl +++ b)).
    cbn [take_until]. unfold nl at 1. cbn [String.prefix].
    destruct (ascii_dec (ascii_of_nat 10) x) as [E|E].
    + subst x. discriminate.
    + cbn [negb andb]. now rewrite (IH Ha).
Qed.

Lemma strip_prefix_app (p s : string) : strip_prefix p (p +++ s) = Some s.
Proof.
  induction p as [|a p IH]; [now destruct s |].
  simpl. now rewrite Ascii.eqb_refl.
Qed.

Lemma block_of_lines (n : nat) (entry : string * Item) :
  block_of (n, entry)
  = (("File" +++ str n +++ "=") +++ fst entry)
    +++ nl +++ (("Title" +++ str n +++ "=") +++ title (snd entry)).
Proof. unfold block_of. cbn [fst snd]. now rewrite !append_assoc. Qed.

Lemma block_of_ok (n : nat) (entry : string * Item) :
  no_nl (fst entry) = true -> no_nl (title (snd entry)) = true ->
  block_ok (block_of (n, entry)) = true.
Proof.
  intros Hk Ht. rewrite block_of_lines.
  change (("Title" +++ str n +++ "=") +++ title (snd entry))
    with (String "T" (("itle" +++ str n +++ "=") +++ title (snd entry))).
  apply block_ok_two_lines.
  - rewrite !no_nl_app, no_nl_str, Hk. reflexivity.
  - change (String "T" (("itle" +++ str n +++ "=") +++ title (snd entry)))
      with (("Title" +++ str n +++ "=") +++ title (snd entry)).
    rewrite !no_nl_app, no_nl_str, Ht. reflexivity.
Qed.

Lemma parse_block_of (n : nat) (entry : string * Item) :
  no_nl (fst entry) = true ->
  parse_block n (block_of (n, entry)) = Some (fst entry, title (snd entry)).
Proof.
  intros Hk. unfold parse_block. rewrite block_of_lines, take_until_line.
  - now rewrite !strip_prefix_app.
  - rewrite !no_nl_app, no_nl_str, Hk. reflexivity.
Qed.

Lemma split_blocks_body (m : Manifest) (n : nat) :
  line_safe m = true ->
  split_blocks (pls_blocks n m) = map block_of (enumerate_from n m) ++ [""].
Proof.
  revert n. induction m as [|e m IH]; intros n H; [reflexivity |].
  cbn [line_safe forallb] in H. apply andb_true_iff in H. destruct H as [He Hm].
  apply andb_true_iff in He. destruct He as [Hk Ht].
  cbn [pls_blocks enumerate_from map app].
  rewrite split_blocks_cut by now apply block_of_ok.
  now rewrite (IH (S n) Hm).
Qed.

Lemma parse_blocks_body (m : Manifest) (n : nat) :
  line_safe m = true ->
  parse_blocks n (map block_of (enumerate_from n m) ++ [""]) = Some (manifest_pairs m).
Proof.
  revert n. induction m as [|e m IH]; intros n H; [reflexivity |].
  cbn [line_safe forallb] in H. apply andb_true_iff in H. destruct H as [He Hm].
  apply andb_true_iff in He. destruct He as [Hk Ht].
  specialize (IH (S n) Hm).
  cbn [enumerate_from map app manifest_pairs].
  destruct (map block_of (enumerate_from (S n) m) ++ [""]) as [|b bs] eqn:E.
  - destruct m; discriminate.
  - cbn [parse_blocks]. rewrite (parse_block_of n e Hk).
    cbn [parse_blocks] in IH. unfold manifest_pairs in IH. rewrite IH. reflexivity.
Qed.

(** C3, as the code has it: the text is the header and, for entry [n]
    counted from 1 in manifest order, the lines [File{n}={filename}] and
    [Title{n}={title}] followed by a blank line; read back block by block
    it gives the manifest's (filename, title) pairs in order whenever no
    filename and no title holds a line feed. *)
Theorem C3_playlist_round_trip :
  (forall m : Manifest, pls_text m = "[playlist]" +++ nl +++ nl +++ pls_blocks 1 m)
  /\ (forall m : Manifest,
         line_safe m = true -> parse_pls (pls_text m) = Some (manifest_pairs m)).
Proof.
  assert (T : forall m : Manifest, pls_text m = "[playlist]" +++ nl +++ nl +++ pls_blocks 1 m).
  { intros m. unfold pls_text. rewrite pls_loop_blocks. now rewrite !append_assoc. }
  split; [exact T |].
  intros m H. unfold parse_pls. rewrite T.
  rewrite split_blocks_cut by reflexivity.
  rewrite String.eqb_refl, (split_blocks_body m 1 H).
  now apply parse_blocks_body.
Qed.

Lemma C3_witness :
  parse_pls (pls_text Demo.manifest2)
  = Some [ ("Ch1 (001).mp3", "Ch1"); ("Ch2 (002).mp3", "Ch2") ].
Proof.
  apply (proj2 C3_playlist_round_trip Demo.manifest2). vm_compute. reflexivity.
Defined.

(** C3, the claim as worded, refuted: a title that holds a blank line is
    not read back, and two manifests with different pairs have the same
    playlist text, so that no reader can recover both. *)
Lemma C3_counterexample :
  parse_pls (pls_text Demo.clash_a) <> Some (manifest_pairs Demo.clash_a)
  /\ pls_text Demo.clash_a = pls_text Demo.clash_b
  /\ manifest_pairs Demo.clash_a <> manifest_pairs Demo.clash_b
  /\ ~ (exists read : string -> list (string * string),
           read (pls_text Demo.clash_a) = manifest_pairs Demo.clash_a
           /\ read (pls_text Demo.clash_b) = manifest_pairs Demo.clash_b).
Proof.
  assert (E : pls_text Demo.clash_a = pls_text Demo.clash_b) by (vm_compute; reflexivity).
  assert (N : manifest_pairs Demo.clash_a <> manifest_pairs Demo.clash_b)
    by (vm_compute; discriminate).
  split; [| split; [| split]].
  - vm_compute. discriminate.
  - exact E.
  - exact N.
  - intros [read [Ha Hb]]. apply N. rewrite <- Ha, <- Hb, E. reflexivity.
Qed.

(** ** The tag pass *)

Section TagPass.

Variable env : Env.

Lemma retag_entry_run (entry : string * Item) (w : World) :
  exists w', retag_entry env entry w = Ok tt w'
             /\ tagdb w' = retag_db env (tagdb w) entry
             /\ fs w' = fs w
             /\ loads (trace w') = loads (trace w) ++ [(fst entry, file (snd entry))].
Proof.
  destruct entry as [k it]. unfold retag_entry, retag_db, bind, emit, load_title.
  cbn [fst snd tagdb fs trace].
  assert (L : forall tr ev, loads (tr ++ [ev]) = loads tr ++ loads [ev])
    by (intros; unfold loads; now rewrite flat_map_app).
  destruct (file it) as [path|].
  - destruct (dict_get (tagdb w) path) as [old|].
    + cbn [scast]. destruct (contains (title it) old); cbn [negb].
      * eexists. repeat split. cbn [trace]. now rewrite L.
      * destruct (save_error env path); unfold set_tag, print;
          eexists; repeat split; cbn [trace]; rewrite !L; cbn; now rewrite app_nil_r.
    + unfold print. eexists. repeat split. cbn [trace]. now rewrite L.
  - unfold print. eexists. repeat split. cbn [trace]. now rewrite L.
Qed.

Lemma retag_run (m : Manifest) (w : World) :
  exists w', retag env m w = Ok tt w'
             /\ tagdb w' = fold_left (retag_db env) m (tagdb w)
             /\ fs w' = fs w
             /\ loads (trace w') = loads (trace w) ++ map (fun e => (fst e, file (snd e))) m.
Proof.
  unfold retag. revert w. induction m as [|e m IH]; intros w.
  - exists w. cbn. now rewrite app_nil_r.
  - cbn [for_fold]. unfold bind.
    destruct (retag_entry_run e w) as (w1 & E1 & T1 & F1 & L1). rewrite E1.
    destruct (IH w1) as (w2 & E2 & T2 & F2 & L2).
    exists w2. rewrite E2, T2, F2, L2, T1, F1, L1. cbn [fold_left map].
    now rewrite <- app_assoc.
Qed.

Lemma grows_refl (db : list (string * string)) : grows db db.
Proof.
  intros path. destruct (dict_get db path) as [old|]; [| reflexivity].
  exists "". now rewrite append_nil_r.
Qed.

Lemma grows_trans (a b c : list (string * string)) : grows a b -> grows b c -> grows a c.
Proof.
  intros Hab Hbc path. specialize (Hab path). specialize (Hbc path).
  destruct (dict_get a path) as [old|].
  - destruct Hab as [x Hx]. rewrite Hx in Hbc. destruct Hbc as [y Hy].
    exists (x +++ y). now rewrite <- append_assoc.
  - now rewrite Hab in Hbc.
Qed.

Lemma retag_db_grows (db : list (string * string)) (entry : string * Item) :
  grows db (retag_db env db entry).
Proof.
  unfold retag_db.
  destruct (file (snd entry)) as [path|]; [| apply grows_refl].
  destruct (dict_get db path) as [old|] eqn:G; [| apply grows_refl].
  destruct (contains (title (snd entry)) old); [apply grows_refl |].
  destruct (save_error env path); [apply grows_refl |].
  intros q. destruct (string_dec path q) as [<-|Hne].
  - rewrite G, dict_get_set_same. now eexists.
  - rewrite (dict_get_set_other db path q _ Hne).
    destruct (dict_get db q) as [o|]; [| reflexivity].
    exists "". now rewrite append_nil_r.
Qed.

Lemma fold_retag_db_grows (m : Manifest) (db : list (string * string)) :
  grows db (fold_left (retag_db env) m db).
Proof.
  revert db. induction m as [|e m IH]; intros db; [apply grows_refl |].
  cbn [fold_left]. eapply grows_trans; [apply retag_db_grows | apply IH].
Qed.

Lemma settled_grows (db db' : list (string * string)) (entry : string * Item) :
  settled env db entry -> grows db db' -> settled env db' entry.
Proof.
  intros Hs Hg path old' Hf Hd Hsave. specialize (Hg path).
  destruct (dict_get db path) as [old|] eqn:G.
  - destruct Hg as [x Hx]. rewrite Hx in Hd. injection Hd as <-.
    apply contains_app_r. now apply (Hs path old).
  - rewrite Hg in Hd. discriminate.
Qed.

Lemma retag_db_settles (db : list (string * string)) (entry : string * Item) :
  settled env (retag_db env db entry) entry.
Proof.
  intros path old Hf Hd Hsave. unfold retag_db in Hd. rewrite Hf in Hd.
  destruct (dict_get db path) as [o|] eqn:G.
  - destruct (contains (title (snd entry)) o) eqn:C.
    + rewrite G in Hd. now injection Hd as <-.
    + rewrite Hsave, dict_get_set_same in Hd. injection Hd as <-.
      apply contains_joined.
  - rewrite G in Hd. discriminate.
Qed.

Lemma fold_retag_db_settles (m : Manifest) (db : list (string * string)) :
  Forall (settled env (fold_left (retag_db env) m db)) m.
Proof.
  revert db. induction m as [|e m IH]; intros db; [constructor |].
  cbn [fold_left]. constructor; [| apply IH].
  apply (settled_grows (retag_db env db e)); [apply retag_db_settles |].
  apply fold_retag_db_grows.
Qed.

Lemma retag_db_settled (db : list (string * string)) (entry : string * Item) :
  settled env db entry -> retag_db env db entry = db.
Proof.
  intros Hs. unfold retag_db.
  destruct (file (snd entry)) as [path|] eqn:Hf; [| reflexivity].
  destruct (dict_get db path) as [old|] eqn:G; [| reflexivity].
  destruct (contains (title (snd entry)) old) eqn:C; [reflexivity |].
  destruct (save_error env path) eqn:S; [reflexivity |].
  rewrite (Hs path old Hf G S) in C. discriminate.
Qed.

Lemma fold_retag_db_settled (m : Manifest) (db : list (string * string)) :
  Forall (settled env db) m -> fold_left (retag_db env) m db = db.
Proof.
  induction m as [|e m IH]; intros H; [reflexivity |].
  inversion H as [|? ? He Hm]; subst. cbn [fold_left].
  rewrite (retag_db_settled db e He). now apply IH.
Qed.

(** C4: on a file whose title tag already holds the entry's title the
    tag pass only loads: the tag and the rest of the world stay as they
    were and no save is issued; and a second pass over the same manifest
    leaves every title tag as the first pass left it. *)
Theorem C4_retag_idempotent :
  (forall (k path old : string) (it : Item) (w : World),
      file it = Some path ->
      dict_get (tagdb w) path = Some old ->
      contains (title it) old = true ->
      retag_entry env (k, it) w = Ok tt (traced (EvLoad k (Some path)) w))
  /\ (forall (m : Manifest) (w : World),
         exists w1 w2,
           retag env m w = Ok tt w1
           /\ retag env m w1 = Ok tt w2
           /\ tagdb w2 = tagdb w1).
Proof.
  split.
  - intros k path old it w Hf Hd Hc.
    unfold retag_entry, bind, emit, load_title. rewrite Hf. cbn [tagdb].
    rewrite Hd. cbn [scast]. rewrite Hc. reflexivity.
  - intros m w.
    destruct (retag_run m w) as (w1 & E1 & T1 & _).
    destruct (retag_run m w1) as (w2 & E2 & T2 & _).
    exists w1, w2. repeat split; [exact E1 | exact E2 |].
    rewrite T2. apply fold_retag_db_settled.
    rewrite T1. apply fold_retag_db_settles.
Qed.

(** C5, as the code has it: the tag pass calls the load operation once
    for every entry of the manifest, in manifest order, with the entry's
    local path or [None] when none was set, whatever the entry's
    [downloaded] mark; for an entry without a local path the load fails,
    which is printed, and neither a tag nor a file changes. *)
Theorem C5_retag_loads_every_entry :
  (forall (m : Manifest) (w : World),
      exists w', retag env m w = Ok tt w'
                 /\ loads (trace w')
                    = loads (trace w) ++ map (fun e => (fst e, file (snd e))) m)
  /\ (forall (k : string) (it : Item) (w : World),
         file it = None ->
         retag_entry env (k, it) w
         = Ok tt (printed (nl +++ "Error tagging None: " +++ load_error env None)
                          (traced (EvLoad k None) w))).
Proof.
  split.
  - intros m w. destruct (retag_run m w) as (w' & E & _ & _ & L). now exists w'.
  - intros k it w Hf. unfold retag_entry, bind, emit, load_title. now rewrite Hf.
Qed.

End TagPass.

Lemma C4_witness :
  retag_entry Demo.env
    ("Ch1 (001).mp3",
     mkItem "http://books.example/f/1.mp3" "Ch1" (Some false) (Some "out/Ch1 (001).mp3"))
    (mkWorld (fs Demo.world) [("out/Ch1 (001).mp3", "Old title Ch1")] [] [])
  = Ok tt (traced (EvLoad "Ch1 (001).mp3" (Some "out/Ch1 (001).mp3"))
                  (mkWorld (fs Demo.world) [("out/Ch1 (001).mp3", "Old title Ch1")] [] [])).
Proof.
  apply (proj1 (C4_retag_idempotent Demo.env) _ _ "Old title Ch1"); reflexivity.
Defined.

Lemma C5_witness :
  retag_entry Demo.env ("Part 001.mp3", mkItem "" "Part 001.mp3" (Some false) None) Demo.world
  = Ok tt (printed (nl +++ "Error tagging None: unsupported file")
                   (traced (EvLoad "Part 001.mp3" None) Demo.world)).
Proof.
  apply (proj2 (C5_retag_loads_every_entry Demo.env)). reflexivity.
Defined.

(** C5, the claim as worded, refuted on a second run over a directory
    that already holds the first chapter while the second cannot be
    fetched: neither entry is marked downloaded, yet the tag pass loads
    both files, and it rewrites the title tag of the first. *)
Lemma C5_counterexample :
  match download_ress Demo.env Demo.manifest_rerun "out" false Demo.world with
  | Ok m w1 =>
      map (fun e => downloaded (snd e)) m = [Some false; Some false]
      /\ match retag Demo.env m w1 with
         | Ok _ w2 =>
             loads (trace w2)
             = [ ("Ch1 (001).mp3", Some "out/Ch1 (001).mp3");
                 ("Ch9 (002).mp3", Some "out/Ch9 (002).mp3") ]
             /\ dict_get (tagdb w2) "out/Ch1 (001).mp3" = Some "Old title Ch1"
         | _ => False
         end
  | _ => False
  end.
Proof. vm_compute. split; [| split]; reflexivity. Qed.

(** ** The download loop *)

Section Download.

Variable env : Env.

Lemma exists_test (w : World) (path : string) :
  (match dict_get (fs w) path with Some (File _) => true | _ => false end)
  || (match dict_get (fs w) path with Some Dir => true | _ => false end)
  = match dict_get (fs w) path with Some _ => true | None => false end.
Proof. destruct (dict_get (fs w) path) as [[|b]|]; reflexivity. Qed.

(** What one turn of the loop does, dry run or not. *)
Lemma download_entry_run (dir : string) (dry_run : bool) (k : string) (it : Item) (w : World) :
  exists it' w' evs,
    download_entry env dir dry_run (k, it) w = Ok (k, it') w'
    /\ trace w' = trace w ++ evs
    /\ (forall path node, dict_get (fs w) path = Some node -> dict_get (fs w') path = Some node)
    /\ (forall ev, In ev evs ->
          (ev = EvFetch k (href it) \/ ev = EvWrite k (dir +++ "/" +++ k))
          /\ dict_get (fs w) (dir +++ "/" +++ k) = None
          /\ dry_run = false)
    /\ downloaded it' <> None
    /\ (dict_get (fs w) (dir +++ "/" +++ k) <> None -> downloaded it' = Some false)
    /\ (dry_run = true ->
          evs = [] /\ fs w' = fs w /\ tagdb w' = tagdb w
          /\ stdout w' = stdout w ++ [dry_line dir (k, it)]).
Proof.
  unfold download_entry, dry_line. cbn [fst snd href set_downloaded set_file].
  destruct (String.eqb (href it) "").
  { unfold bind, print, ret. do 2 eexists. exists [].
    split; [reflexivity |]. cbn [trace fs tagdb stdout downloaded].
    rewrite app_nil_r. repeat split; easy. }
  destruct dry_run.
  { unfold bind, print, ret. do 2 eexists. exists [].
    split; [reflexivity |]. cbn [trace fs tagdb stdout downloaded].
    rewrite app_nil_r. repeat split; try easy. now rewrite !append_assoc. }
  unfold bind, print, isfile, isdir. cbn [fs]. rewrite exists_test.
  destruct (dict_get (fs w) (dir +++ "/" +++ k)) as [node|] eqn:G.
  { unfold ret. do 2 eexists. exists [].
    split; [reflexivity |]. cbn [trace fs tagdb stdout downloaded].
    rewrite app_nil_r. repeat split; easy. }
  unfold emit. cbn [fs tagdb stdout trace].
  destruct (urlopen env (href it)) as [data|e].
  - destruct (open_error env (dir +++ "/" +++ k)) as [e|].
    + unfold ret. do 2 eexists. exists [EvFetch k (href it); EvWrite k (dir +++ "/" +++ k)].
      split; [reflexivity |]. cbn [trace fs tagdb stdout downloaded].
      split; [now rewrite <- app_assoc |]. split; [easy |].
      split; [| repeat split; easy].
      intros ev [<-|[<-|[]]]; repeat split; auto.
    + unfold write_file, ret. do 2 eexists.
      exists [EvFetch k (href it); EvWrite k (dir +++ "/" +++ k)].
      split; [reflexivity |]. cbn [trace fs tagdb stdout downloaded].
      split; [now rewrite <- app_assoc |]. split.
      { intros path node Hp. rewrite dict_get_set_other; [exact Hp |].
        intros <-. rewrite G in Hp. discriminate. }
      split; [| repeat split; easy].
      intros ev [<-|[<-|[]]]; repeat split; auto.
  - unfold ret. do 2 eexists. exists [EvFetch k (href it)].
    split; [reflexivity |]. cbn [trace fs tagdb stdout downloaded].
    split; [reflexivity |]. split; [easy |].
    split; [| repeat split; easy].
    intros ev [<-|[]]; repeat split; auto.
Qed.

Lemma absent_before (w w1 : World) (path : string) :
  (forall p node, dict_get (fs w) p = Some node -> dict_get (fs w1) p = Some node) ->
  dict_get (fs w1) path = None -> dict_get (fs w) path = None.
Proof.
  intros P H. destruct (dict_get (fs w) path) as [node|] eqn:E; [| reflexivity].
  rewrite (P path node E) in H. discriminate.
Qed.

(** The whole loop. *)
Lemma download_loop_run (dir : string) (dry_run : bool) (m : Manifest) (w : World) :
  exists m' w' evs,
    for_each (download_entry env dir dry_run) m w = Ok m' w'
    /\ map fst m' = map fst m
    /\ trace w' = trace w ++ evs
    /\ (forall path node, dict_get (fs w) path = Some node -> dict_get (fs w') path = Some node)
    /\ (forall ev, In ev evs ->
          exists k u, (ev = EvFetch k u \/ ev = EvWrite k u)
                      /\ dict_get (fs w) (dir +++ "/" +++ k) = None
                      /\ dry_run = false)
    /\ Forall (fun e => downloaded (snd e) <> None) m'
    /\ (forall k it', In (k, it') m' ->
          dict_get (fs w) (dir +++ "/" +++ k) <> None -> downloaded it' = Some false)
    /\ (dry_run = true ->
          evs = [] /\ fs w' = fs w /\ tagdb w' = tagdb w
          /\ stdout w' = stdout w ++ map (dry_line dir) m).
Proof.
  revert w. induction m as [|[k it] m IH]; intros w.
  - exists [], w, []. cbn. rewrite !app_nil_r. repeat split; easy.
  - cbn [for_each]. unfold bind.
    destruct (download_entry_run dir dry_run k it w)
      as (it1 & w1 & evs1 & E1 & T1 & P1 & V1 & D1 & X1 & Y1).
    rewrite E1.
    destruct (IH w1) as (m2 & w2 & evs2 & E2 & K2 & T2 & P2 & V2 & D2 & X2 & Y2).
    rewrite E2. unfold ret.
    exists ((k, it1) :: m2), w2, (evs1 ++ evs2).
    split; [reflexivity |].
    split; [cbn [map fst]; now rewrite K2 |].
    split; [now rewrite T2, T1, app_assoc |].
    split; [intros path node Hp; now apply P2, P1 |].
    split.
    { intros ev Hev. apply in_app_or in Hev. destruct Hev as [Hev|Hev].
      - destruct (V1 ev Hev) as (Hk & Ha & Hd).
        destruct Hk as [-> | ->]; eexists; eexists; (split; [| split]); eauto.
      - destruct (V2 ev Hev) as (k' & u & Hk & Ha & Hd).
        exists k', u. repeat split; auto. now apply (absent_before w w1). }
    split; [constructor; [exact D1 | exact D2] |].
    split.
    { intros k' it' [Hin|Hin] Hp.
      - injection Hin as <- <-. now apply X1.
      - apply (X2 k' it' Hin). intros Hn. apply Hp. now apply (absent_before w w1). }
    intros Hdry. destruct (Y1 Hdry) as (-> & F1 & G1 & S1).
    destruct (Y2 Hdry) as (-> & F2 & G2 & S2).
    repeat split.
    + now rewrite F2.
    + now rewrite G2.
    + rewrite S2, S1. cbn [map]. now rewrite <- app_assoc.
Qed.


(** C8: the dry run never touches the network, the files or the tags;
    with the output directory in place it prints one line per entry, the
    planned [path:  <--- URL] for an entry with a source URL and the
    empty-URL notice otherwise, so that a manifest of two chapters with
    source URLs prints exactly its two planned lines. *)
Theorem C8_dry_run_only_reports (m : Manifest) (dir : string) (w : World) :
  trace (result_world (download_ress env m dir true w)) = trace w
  /\ fs (result_world (download_ress env m dir true w)) = fs w
  /\ tagdb (result_world (download_ress env m dir true w)) = tagdb w
  /\ (dict_get (fs w) dir = Some Dir ->
        (exists m' w', download_ress env m dir true w = Ok m' w'
                       /\ stdout w' = stdout w ++ map (dry_line dir) m)
        /\ (forall entry, href (snd entry) <> "" -> dry_line dir entry = planned_line dir entry)
        /\ (forall e1 e2, m = [e1; e2] -> href (snd e1) <> "" -> href (snd e2) <> "" ->
              stdout (result_world (download_ress env m dir true w))
              = stdout w ++ [planned_line dir e1; planned_line dir e2])).
Proof.
  unfold download_ress, bind, isdir.
  destruct (download_loop_run dir true m w)
    as (m' & w' & evs & E & K & T & P & V & D & X & Y).
  destruct (Y eq_refl) as (-> & F & G & S). rewrite app_nil_r in T.
  assert (L : forall entry, href (snd entry) <> "" -> dry_line dir entry = planned_line dir entry).
  { intros entry Hne. unfold dry_line, planned_line.
    destruct (String.eqb_spec (href (snd entry)) ""); [contradiction | reflexivity]. }
  destruct (dict_get (fs w) dir) as [[|b]|] eqn:Hd; cbn [negb].
  - rewrite E. cbn [result_world]. repeat split; auto.
    + exists m', w'. now split.
    + intros e1 e2 -> H1 H2. rewrite S. cbn [map]. now rewrite (L e1 H1), (L e2 H2).
  - unfold print, sys_exit. cbn [result_world trace fs tagdb]. repeat split; discriminate.
  - unfold print, sys_exit. cbn [result_world trace fs tagdb]. repeat split; discriminate.
Qed.

End Download.


Lemma C8_witness :
  stdout (result_world (download_ress Demo.env Demo.manifest2 "out" true Demo.world))
  = [ "out/Ch1 (001).mp3:  <--- http://books.example/f/1.mp3";
      "out/Ch2 (002).mp3:  <--- http://books.example/f/2.mp3" ].
Proof.
  apply (proj2 (proj2 (proj2 (proj2 (proj2
           (C8_dry_run_only_reports Demo.env Demo.manifest2 "out" Demo.world))) eq_refl))
           _ _ eq_refl); discriminate.
Defined.

(** ** Search *)

Lemma slist_nat {A : Type} (l : list A) (i : nat) (d : A) :
  slist l (Z.of_nat i) d = nth i l d.
Proof.
  unfold slist.
  destruct (Z.leb_spec 0 (Z.of_nat i)); [| lia]. cbn [andb].
  destruct (Z.ltb_spec (Z.of_nat i) (Z.of_nat (List.length l))).
  - now rewrite Nat2Z.id.
  - destruct (Z.ltb_spec (Z.of_nat i) 0); [lia |]. cbn [andb].
    symmetry. apply nth_overflow. lia.
Qed.

Lemma hd_skipn {A : Type} (l : list A) (i : nat) (d : A) : hd d (skipn i l) = nth i l d.
Proof.
  revert l. induction i as [|i IH]; intros [|x l]; try reflexivity. apply IH.
Qed.

Lemma tl_skipn {A : Type} (l : list A) (i : nat) : tl (skipn i l) = skipn (S i) l.
Proof.
  revert l. induction i as [|i IH]; intros [|x l]; try reflexivity. apply IH.
Qed.

(** The pairing of the specification, read by index. *)
Lemma spec_pair_up_index (prefix : string) (links titles : list string) (i : nat) :
  spec_pair_up prefix links (skipn i titles)
  = flat_map (fun il => if String.eqb (snd il) "" then []
                        else [(prefix +++ snd il, sub_refs (nth (fst il) titles "<ERROR>"))])
             (enumerate_from i links).
Proof.
  revert i. induction links as [|l links IH]; intros i; [reflexivity |].
  cbn [spec_pair_up enumerate_from flat_map fst snd].
  now rewrite hd_skipn, tl_skipn, IH.
Qed.

Lemma search_links_fold (prefix : string) (titles links : list string) (i : nat)
  (results : list (string * string)) :
  fold_left
    (fun results (il : nat * string) =>
       let '(i, l) := il in
       if String.eqb l "" then results
       else
         let l := prefix +++ l in
         let t := slist titles (Z.of_nat i) "<ERROR>" in
         let t := sub_refs t in
         results ++ [(l, t)])
    (enumerate_from i links) results
  = results ++ spec_pair_up prefix links (skipn i titles).
Proof.
  revert i results. induction links as [|l links IH]; intros i results.
  - simpl. now rewrite app_nil_r.
  - cbn [enumerate_from fold_left spec_pair_up]. rewrite IH, tl_skipn.
    destruct (String.eqb l ""); [reflexivity |].
    cbv zeta. rewrite slist_nat, hd_skipn. now rewrite <- app_assoc.
Qed.

Lemma search_links_spec (prefix : string) (titles links : list string)
  (results : list (string * string)) :
  search_links prefix titles results links = results ++ spec_pair_up prefix links titles.
Proof. unfold search_links. now rewrite search_links_fold. Qed.

Lemma print_all (lines : list (string * string)) (w : World) :
  exists w', for_fold (fun _ r => print (snd r +++ "  ---->" +++ fst r)) lines tt w = Ok tt w'
             /\ fs w' = fs w /\ tagdb w' = tagdb w /\ trace w' = trace w.
Proof.
  revert w. induction lines as [|r lines IH]; intros w.
  - now exists w.
  - destruct (IH (mkWorld (fs w) (tagdb w)
                    (stdout w ++ [snd r +++ "  ---->" +++ fst r]) (trace w)))
      as (w' & E & F & G & T).
    exists w'. split; [exact E | now repeat split].
Qed.

Lemma report_run (results : list (string * string)) (w : World) :
  exists w',
    (if Nat.eqb (List.length results) 0 then print "No matching audiobooks found!"
     else
       print ("Found " +++ str (List.length results) +++ " matching audiobooks:" +++ nl) ;;
       for_fold (fun _ r => print (snd r +++ "  ---->" +++ fst r)) results tt) w
    = Ok tt w'
    /\ fs w' = fs w /\ tagdb w' = tagdb w /\ trace w' = trace w.
Proof.
  destruct (Nat.eqb (List.length results) 0).
  - unfold print. eexists. split; [reflexivity |]. now cbn.
  - destruct (print_all results
                (mkWorld (fs w) (tagdb w)
                   (stdout w ++ ["Found " +++ str (List.length results)
                                 +++ " matching audiobooks:" +++ nl]) (trace w)))
      as (w' & E & F & G & T).
    exists w'. split; [exact E | now repeat split].
Qed.

Lemma take_until_semicolon (d b : string) :
  lacks ";" d = true -> no_nl d = true ->
  take_until ";" false (d +++ ";" +++ b) = Some (d, b).
Proof.
  intros Hs Hn. induction d as [|x d IH].
  - now destruct b.
  - cbn [lacks] in Hs. apply andb_true_iff in Hs. destruct Hs as [Hx Hs].
    cbn [no_nl] in Hn. apply andb_true_iff in Hn. destruct Hn as [Hy Hn].
    change (String x d +++ ";" +++ b) with (String x (d +++ ";" +++ b)).
    cbn [take_until String.prefix].
    destruct (ascii_dec ";" x) as [E|E].
    + subst x. discriminate.
    + cbn [negb andb]. unfold is_nl in Hy.
      destruct (Ascii.eqb x (ascii_of_nat 10)); [discriminate |].
      now rewrite (IH Hs Hn).
Qed.

Lemma sub_refs_skip (x y : string) (n : nat) :
  sub_refs_from (String.length x + n) (x +++ y) = sub_refs_from n y.
Proof. induction x as [|c x IH]; [reflexivity | exact IH]. Qed.

Lemma sub_refs_from_cons (skip : nat) (c : ascii) (t' : string) :
  sub_refs_from skip (String c t')
  = match skip with
    | S k => sub_refs_from k t'
    | O =>
        match (if String.prefix "&#" (String c t')
               then take_until ";" false (drop 2 (String c t'))
               else None) with
        | Some (body, _) => sub_refs_from (2 + String.length body) t'
        | None => String c (sub_refs_from 0 t')
        end
    end.
Proof. reflexivity. Qed.

Lemma sub_refs_reference (a d b : string) :
  lacks "&" a = true -> lacks ";" d = true -> no_nl d = true ->
  sub_refs (a +++ "&#" +++ d +++ ";" +++ b) = a +++ sub_refs b.
Proof.
  intros Ha Hd Hn. unfold sub_refs. induction a as [|x a IH].
  - change ("" +++ "&#" +++ d +++ ";" +++ b) with (String "&" ("#" +++ d +++ ";" +++ b)).
    rewrite sub_refs_from_cons.
    change (String "&" ("#" +++ d +++ ";" +++ b)) with ("&#" +++ (d +++ ";" +++ b)).
    rewrite prefix_refl_app.
    change (drop 2 ("&#" +++ (d +++ ";" +++ b))) with (d +++ ";" +++ b).
    rewrite (take_until_semicolon d b Hd Hn).
    replace (2 + String.length d) with (String.length (("#" +++ d) +++ ";") + 0)
      by (rewrite !length_append; simpl; lia).
    replace ("#" +++ d +++ ";" +++ b) with ((("#" +++ d) +++ ";") +++ b)
      by (now rewrite !append_assoc).
    rewrite sub_refs_skip. reflexivity.
  - cbn [lacks] in Ha. apply andb_true_iff in Ha. destruct Ha as [Hx Ha].
    change (String x a +++ "&#" +++ d +++ ";" +++ b)
      with (String x (a +++ "&#" +++ d +++ ";" +++ b)).
    rewrite sub_refs_from_cons.
    replace (String.prefix "&#" (String x (a +++ "&#" +++ d +++ ";" +++ b))) with false.
    + rewrite (IH Ha). reflexivity.
    + cbn [String.prefix]. destruct (ascii_dec "&" x) as [E|E]; [| reflexivity].
      subst x. discriminate.
Qed.

Section Search.

Variable re_findall : rx -> string -> list string.
Variable env : Env.

Lemma search_provider_run (phrase : string) (acc : list (string * string))
  (entry : string * Body) (w : World) :
  (exposes_search (snd entry) = true ->
   fetched env (search_page_url phrase (snd entry)) = true) ->
  exists w',
    search_provider re_findall env (prepare_phrase phrase) acc entry w
    = Ok (acc ++ if exposes_search (snd entry)
                 then spec_provider_results re_findall env phrase entry else []) w'
    /\ fs w' = fs w /\ tagdb w' = tagdb w /\ stdout w' = stdout w
    /\ trace w' = trace w ++ if exposes_search (snd entry)
                             then [EvPage (search_page_url phrase (snd entry))] else [].
Proof.
  destruct entry as [pr body].
  unfold search_provider, exposes_search, spec_provider_results, fetched,
    search_page_url, page_of.
  cbn [snd]. intros H.
  destruct (search_url body) as [s|]; [destruct (rx_slinks body) as [rl|];
    [destruct (rx_stitles body) as [rt|] |] |];
    try (exists w; unfold ret; now rewrite !app_nil_r).
  specialize (H eq_refl).
  unfold bind, download_html, bind, emit.
  destruct (urlopen env (replace s "%q" (prepare_phrase phrase))) as [html|e];
    [| discriminate].
  unfold ret. rewrite search_links_spec. eexists. split; [reflexivity |]. now cbn.
Qed.

Lemma search_loop (phrase : string) (l : list (string * Body))
  (acc : list (string * string)) (w : World) :
  (forall entry, In entry l -> exposes_search (snd entry) = true ->
                 fetched env (search_page_url phrase (snd entry)) = true) ->
  exists w',
    for_fold (search_provider re_findall env (prepare_phrase phrase)) l acc w
    = Ok (acc ++ flat_map (spec_provider_results re_findall env phrase)
                          (filter (fun entry => exposes_search (snd entry)) l)) w'
    /\ fs w' = fs w /\ tagdb w' = tagdb w /\ stdout w' = stdout w
    /\ trace w' = trace w ++ search_events l phrase.
Proof.
  revert acc w. induction l as [|entry l IH]; intros acc w H.
  - exists w. cbn. now rewrite !app_nil_r.
  - destruct (search_provider_run phrase acc entry w (H entry (or_introl eq_refl)))
      as (w1 & E1 & F1 & G1 & S1 & T1).
    destruct (IH (acc ++ if exposes_search (snd entry)
                         then spec_provider_results re_findall env phrase entry else [])
                 w1 (fun e Hin => H e (or_intror Hin)))
      as (w2 & E2 & F2 & G2 & S2 & T2).
    exists w2. cbn [for_fold]. unfold bind. rewrite E1, E2.
    unfold search_events. cbn [filter].
    rewrite F2, G2, S2, T2, F1, G1, S1, T1.
    destruct (exposes_search (snd entry)); cbn [flat_map map];
      rewrite <- !app_assoc; repeat split; reflexivity.
Qed.

(** C9: with every search page fetched, [search] returns what the
    specification describes: over the providers of the registry that have
    a search template and both patterns, in registry order, link [k] is
    paired with title [k], a missing title [k] being the error marker;
    empty links are dropped, the provider's prefix is put before each
    kept link, and every [&#...;] run is deleted from each kept title.
    Nothing is ranked or removed across providers.  In the script's own
    registry every provider with a search template has both patterns. *)
Theorem C9_search_pairs_by_position :
  (forall (providers : list (string * Body)) (phrase : string) (w : World),
      (forall entry, In entry providers -> exposes_search (snd entry) = true ->
                     fetched env (search_page_url phrase (snd entry)) = true) ->
      exists w',
        search re_findall env providers phrase w
        = Ok (spec_search re_findall env providers phrase) w'
        /\ trace w' = trace w ++ search_events providers phrase
        /\ fs w' = fs w /\ tagdb w' = tagdb w)
  /\ (forall (prefix : string) (links titles : list string),
         spec_pair_up prefix links titles
         = flat_map (fun kl => if String.eqb (snd kl) "" then []
                               else [(prefix +++ snd kl,
                                      sub_refs (nth (fst kl) titles "<ERROR>"))])
                    (enumerate_from 0 links))
  /\ (forall a d b : string,
         lacks "&" a = true -> lacks ";" d = true -> no_nl d = true ->
         sub_refs (a +++ "&#" +++ d +++ ";" +++ b) = a +++ sub_refs b)
  /\ sub_refs "<ERROR>" = "<ERROR>"
  /\ Forall (fun entry => exposes_search (snd entry) = has_search_template (snd entry))
            PROVIDERS.
Proof.
  split; [| split; [| split; [| split]]].
  - intros providers phrase w H.
    destruct (search_loop phrase providers [] w H) as (w1 & E & F & G & S & T).
    destruct (report_run (spec_search re_findall env providers phrase) w1)
      as (w2 & E2 & F2 & G2 & T2).
    exists w2. split; [| now rewrite T2, F2, G2, T, F, G].
    unfold search, bind. rewrite E. cbn [app].
    unfold spec_search, bind in E2. rewrite E2. reflexivity.
  - intros prefix links titles. exact (spec_pair_up_index prefix links titles 0).
  - exact sub_refs_reference.
  - reflexivity.
  - unfold PROVIDERS. repeat constructor.
Qed.

End Search.

Lemma C9_witness :
  exists w',
    search simple_findall Demo.env Demo.registry "uncle tom" Demo.empty_world
    = Ok [ ("http://books.example/book/1", "Toms Cabin");
           ("http://books.example/book/3", "<ERROR>") ] w'
    /\ trace w' = [EvPage "http://books.example/?s=uncle+tom"].
Proof.
  destruct (proj1 (C9_search_pairs_by_position simple_findall Demo.env)
              Demo.registry "uncle tom" Demo.empty_world) as (w' & E & T & _).
  - intros entry [<-|[<-|[]]]; [reflexivity | discriminate].
  - exists w'. split; [exact E | exact T].
Defined.


(** * Further properties of the script *)

(** ** The helpers *)

Lemma nth_pred_last {A : Type} (l : list A) (d : A) :
  nth (List.length l - 1) l d = last l d.
Proof.
  induction l as [|a l IH]; [reflexivity |].
  destruct l as [|b l]; [reflexivity |].
  cbn [List.length last] in *. rewrite <- IH.
  replace (S (S (List.length l)) - 1) with (S (S (List.length l) - 1)) by lia.
  reflexivity.
Qed.

(** X1: [slist] never fails: index [-1] gives the last element and index [0]
    the first, each being the default on an empty list, and an index
    outside the list on either side gives the default. *)
Theorem X_slist_total {A : Type} (l : list A) (d : A) :
  slist l (-1) d = last l d
  /\ slist l 0 d = hd d l
  /\ (forall i : Z,
         (Z.of_nat (List.length l) <= i \/ i < - Z.of_nat (List.length l))%Z ->
         slist l i d = d).
Proof.
  split; [| split].
  - unfold slist. cbn [Z.leb andb Z.ltb Z.compare].
    destruct l as [|a l]; [reflexivity |].
    destruct (Z.leb_spec (- Z.of_nat (List.length (a :: l))) (-1)) as [H|H].
    + rewrite <- nth_pred_last. f_equal. cbn [List.length] in *. lia.
    + cbn [List.length] in H. lia.
  - unfold slist. destruct l as [|a l]; reflexivity.
  - intros i H. unfold slist.
    destruct (Z.leb_spec 0 i), (Z.ltb_spec i (Z.of_nat (List.length l))),
      (Z.ltb_spec i 0), (Z.leb_spec (- Z.of_nat (List.length l)) i);
      cbn [andb]; try reflexivity; lia.
Qed.

Lemma X_slist_total_witness :
  slist [1; 2; 3] 3%Z 0 = 0 /\ slist [1; 2; 3] (-4)%Z 0 = 0 /\ slist [1; 2; 3] (-1)%Z 0 = 3.
Proof.
  split; [| split].
  - apply (proj2 (proj2 (X_slist_total [1; 2; 3] 0))). cbn. lia.
  - apply (proj2 (proj2 (X_slist_total [1; 2; 3] 0))). cbn. lia.
  - apply (proj1 (X_slist_total [1; 2; 3] 0)).
Defined.

Lemma prefix_nil (s : string) : String.prefix "" s = true.
Proof. now destruct s. Qed.

Lemma prefix_char (c x : ascii) (s : string) :
  String.prefix (String c "") (String x s) = Ascii.eqb x c.
Proof.
  cbn [String.prefix]. rewrite prefix_nil.
  destruct (ascii_dec c x) as [<-|N].
  - now rewrite Ascii.eqb_refl.
  - symmetry. apply Ascii.eqb_neq. congruence.
Qed.

Lemma replace_char_cons (c d x : ascii) (s : string) :
  replace (String x s) (String c "") (String d "")
  = String (if Ascii.eqb x c then d else x) (replace s (String c "") (String d "")).
Proof.
  unfold replace. cbn [replace_from String.length Nat.sub]. rewrite prefix_char.
  now destruct (Ascii.eqb x c).
Qed.

Lemma replace_char_length (c d : ascii) (s : string) :
  String.length (replace s (String c "") (String d "")) = String.length s.
Proof.
  induction s as [|x s IH]; [reflexivity |].
  rewrite replace_char_cons. cbn [String.length]. now rewrite IH.
Qed.

Lemma replace_char_removes (c d : ascii) (s : string) :
  d <> c -> lacks c (replace s (String c "") (String d "")) = true.
Proof.
  intros Hd. induction s as [|x s IH]; [reflexivity |].
  rewrite replace_char_cons. cbn [lacks]. rewrite IH, andb_true_r.
  destruct (Ascii.eqb_spec x c) as [E|E]; apply negb_true_iff, Ascii.eqb_neq; assumption.
Qed.

Lemma replace_char_keeps_lacks (c d e : ascii) (s : string) :
  d <> e -> lacks e s = true -> lacks e (replace s (String c "") (String d "")) = true.
Proof.
  intros Hd. induction s as [|x s IH]; intros H; [reflexivity |].
  cbn [lacks] in H. apply andb_true_iff in H. destruct H as [Hx Hs].
  rewrite replace_char_cons. cbn [lacks]. rewrite (IH Hs), andb_true_r.
  destruct (Ascii.eqb x c); [| exact Hx].
  apply negb_true_iff, Ascii.eqb_neq. exact Hd.
Qed.

Lemma replace_char_absent (c d : ascii) (s : string) :
  lacks c s = true -> replace s (String c "") (String d "") = s.
Proof.
  induction s as [|x s IH]; intros H; [reflexivity |].
  cbn [lacks] in H. apply andb_true_iff in H. destruct H as [Hx Hs].
  rewrite replace_char_cons, (IH Hs).
  apply negb_true_iff in Hx. now rewrite Hx.
Qed.

(** X2: [prepare_phrase] leaves no space and no slash in the phrase, keeps
    its length, and changes nothing when applied again. *)
Theorem X_prepare_phrase_safe (phrase : string) :
  lacks " " (prepare_phrase phrase) = true
  /\ lacks "/" (prepare_phrase phrase) = true
  /\ String.length (prepare_phrase phrase) = String.length phrase
  /\ prepare_phrase (prepare_phrase phrase) = prepare_phrase phrase.
Proof.
  unfold prepare_phrase.
  assert (S : lacks " " (replace (replace phrase " " "+") "/" "+") = true).
  { apply replace_char_keeps_lacks; [discriminate |].
    apply replace_char_removes. discriminate. }
  assert (L : lacks "/" (replace (replace phrase " " "+") "/" "+") = true)
    by (apply replace_char_removes; discriminate).
  split; [exact S | split; [exact L | split]].
  - now rewrite !replace_char_length.
  - rewrite (replace_char_absent " " "+" _ S). now rewrite (replace_char_absent "/" "+" _ L).
Qed.

Lemma sub_refs_from_length (t : string) (skip : nat) :
  String.length (sub_refs_from skip t) <= String.length t.
Proof.
  revert skip. induction t as [|c t IH]; intros skip; [reflexivity |].
  rewrite sub_refs_from_cons. cbn [String.length].
  destruct skip as [|k].
  - destruct (if String.prefix "&#" (String c t)
              then take_until ";" false (drop 2 (String c t)) else None) as [[body rest]|].
    + specialize (IH (2 + String.length body)). lia.
    + cbn [String.length]. specialize (IH 0). lia.
  - specialize (IH k). lia.
Qed.

(** X3: the cleaning of a search title only deletes: the result is never
    longer than the title, and a title without an ampersand is returned
    as it is. *)
Theorem X_sub_refs_only_deletes (t : string) :
  String.length (sub_refs t) <= String.length t
  /\ (lacks "&" t = true -> sub_refs t = t).
Proof.
  split; [apply sub_refs_from_length |].
  unfold sub_refs. induction t as [|c t IH]; intros H; [reflexivity |].
  cbn [lacks] in H. apply andb_true_iff in H. destruct H as [Hc Ht].
  rewrite sub_refs_from_cons.
  replace (String.prefix "&#" (String c t)) with false.
  - now rewrite (IH Ht).
  - cbn [String.prefix]. destruct (ascii_dec "&" c) as [E|E]; [| reflexivity].
    subst c. discriminate.
Qed.

Lemma X_sub_refs_only_deletes_witness : sub_refs "Moby Dick" = "Moby Dick".
Proof. apply (proj2 (X_sub_refs_only_deletes "Moby Dick")). reflexivity. Defined.

Lemma split_nonempty (s : string) (c : ascii) : split s c <> [].
Proof.
  induction s as [|x s IH]; [discriminate |].
  cbn [split]. destruct (Ascii.eqb x c); [discriminate |].
  destruct (split s c); discriminate.
Qed.

Lemma split_pieces_lack (s : string) (c : ascii) :
  Forall (fun piece => lacks c piece = true) (split s c).
Proof.
  induction s as [|x s IH]; [now repeat constructor |].
  cbn [split]. destruct (Ascii.eqb x c) eqn:E.
  - now constructor.
  - destruct (split s c) as [|y ys]; inversion IH as [|? ? Hy Hys]; subst.
    + repeat constructor. cbn [lacks]. now rewrite E.
    + constructor; [| exact Hys]. cbn [lacks]. now rewrite E, Hy.
Qed.

Lemma slist_in_or_default {A : Type} (l : list A) (i : Z) (d : A) :
  slist l i d = d \/ In (slist l i d) l.
Proof.
  assert (N : forall n, nth n l d = d \/ In (nth n l d) l)
    by (intros n; destruct (nth_in_or_default n l d); [now right | now left]).
  unfold slist.
  destruct ((0 <=? i)%Z && (i <? Z.of_nat (List.length l))%Z); [apply N |].
  destruct ((i <? 0)%Z && (- Z.of_nat (List.length l) <=? i)%Z); [apply N | now left].
Qed.

(** X4: a title taken from the href holds neither a slash nor a dot. *)
Theorem X_title_from_href_is_plain (re_findall : rx -> string -> list string)
  (p : Body) (ch ch_href : string) :
  title_from_href p = Some true ->
  lacks "/" (chapter_title re_findall p ch ch_href) = true
  /\ lacks "." (chapter_title re_findall p ch ch_href) = true.
Proof.
  intros H. unfold chapter_title. rewrite H.
  set (seg := slist (split ch_href "/") (-1) "").
  assert (Hseg : lacks "/" seg = true).
  { destruct (slist_in_or_default (split ch_href "/") (-1) "") as [E|E]; fold seg in E.
    - now rewrite E.
    - exact (proj1 (Forall_forall _ _) (split_pieces_lack ch_href "/") seg E). }
  split.
  - destruct (slist_in_or_default (split seg ".") 0 "") as [E|E]; [now rewrite E |].
    revert E. generalize (slist (split seg ".") 0 ""). intros piece E.
    clear H. revert piece E Hseg. induction seg as [|x seg IH]; intros piece E Hseg.
    + destruct E as [<-|[]]. reflexivity.
    + cbn [lacks] in Hseg. apply andb_true_iff in Hseg. destruct Hseg as [Hx Hs].
      cbn [split] in E. destruct (Ascii.eqb x ".").
      * destruct E as [<-|E]; [reflexivity | now apply IH].
      * destruct (split seg ".") as [|y ys] eqn:Es.
        -- destruct E as [<-|[]]. cbn [lacks]. now rewrite Hx.
        -- destruct E as [<-|E].
           ++ cbn [lacks]. rewrite Hx. apply (IH y); [now left | exact Hs].
           ++ apply IH; [now right | exact Hs].
  - destruct (slist_in_or_default (split seg ".") 0 "") as [E|E]; [now rewrite E |].
    exact (proj1 (Forall_forall _ _) (split_pieces_lack seg ".") _ E).
Qed.

Lemma X_title_from_href_is_plain_witness :
  chapter_title simple_findall librivox_body "" "https://host/dir/chapter_01.64kb.mp3"
  = "chapter_01"
  /\ lacks "/" (chapter_title simple_findall librivox_body ""
                  "https://host/dir/chapter_01.64kb.mp3") = true.
Proof.
  split; [reflexivity |].
  apply (X_title_from_href_is_plain simple_findall librivox_body). reflexivity.
Defined.

(** ** Relations that every step of an operation keeps *)

Section Frames.

Variable R : World -> World -> Prop.
Hypothesis R_refl : forall w, R w w.
Hypothesis R_trans : forall a b c, R a b -> R b c -> R a c.

Lemma keeps_ret {A : Type} (a : A) : keeps R (ret a).
Proof. intros w. apply R_refl. Qed.

Lemma keeps_sys_exit {A : Type} (code : Z) : keeps R (@sys_exit A code).
Proof. intros w. apply R_refl. Qed.

Lemma keeps_raise {A : Type} (exn : string) : keeps R (@raise A exn).
Proof. intros w. apply R_refl. Qed.

Lemma keeps_bind {A B : Type} (m : M A) (k : A -> M B) :
  keeps R m -> (forall a, keeps R (k a)) -> keeps R (bind m k).
Proof.
  intros Hm Hk w. unfold bind. specialize (Hm w).
  destruct (m w) as [a w'|c w'|e w']; cbn [result_world] in *; try exact Hm.
  apply (R_trans w w'); [exact Hm | apply Hk].
Qed.

Lemma keeps_for_fold {A S : Type} (body : S -> A -> M S) (l : list A) (s : S) :
  (forall s a, keeps R (body s a)) -> keeps R (for_fold body l s).
Proof.
  intros Hb. revert s. induction l as [|a l IH]; intros s.
  - apply keeps_ret.
  - cbn [for_fold]. apply keeps_bind; [apply Hb | exact IH].
Qed.

Lemma keeps_for_each {A B : Type} (body : A -> M B) (l : list A) :
  (forall a, keeps R (body a)) -> keeps R (for_each body l).
Proof.
  intros Hb. induction l as [|a l IH].
  - apply keeps_ret.
  - cbn [for_each]. apply keeps_bind; [apply Hb |].
    intros b. apply keeps_bind; [exact IH |]. intros bs. apply keeps_ret.
Qed.

End Frames.

Lemma keeps_and {A : Type} (R1 R2 : World -> World -> Prop) (m : M A) :
  keeps R1 m -> keeps R2 m -> keeps (fun w w' => R1 w w' /\ R2 w w') m.
Proof. intros H1 H2 w. split; [apply H1 | apply H2]. Qed.

Lemma same_store_refl (w : World) : same_store w w.
Proof. now split. Qed.

Lemma same_store_trans (a b c : World) : same_store a b -> same_store b c -> same_store a c.
Proof. intros [F1 T1] [F2 T2]. split; congruence. Qed.

Lemma adds_only_refl (allowed : Event -> bool) (w : World) : adds_only allowed w w.
Proof. intros ev H. now left. Qed.

Lemma adds_only_trans (allowed : Event -> bool) (a b c : World) :
  adds_only allowed a b -> adds_only allowed b c -> adds_only allowed a c.
Proof.
  intros H1 H2 ev H. destruct (H2 ev H) as [Hb|Hb]; [now apply H1 | now right].
Qed.

Lemma quiet_refl (w : World) : quiet w w.
Proof. split; [apply same_store_refl | apply adds_only_refl]. Qed.

Lemma quiet_trans (a b c : World) : quiet a b -> quiet b c -> quiet a c.
Proof.
  intros [S1 A1] [S2 A2]. split; [now apply (same_store_trans a b c) |].
  now apply (adds_only_trans is_page a b c).
Qed.

Lemma keeps_quiet_print (line : string) : keeps quiet (print line).
Proof. intros w. split; [now split | intros ev H; now left]. Qed.

Lemma keeps_quiet_page (url : string) : keeps quiet (emit (EvPage url)).
Proof.
  intros w. split; [now split |]. intros ev H. cbn in H.
  apply in_app_or in H. destruct H as [H|[<-|[]]]; [now left | now right].
Qed.

Lemma keeps_quiet_isfile (path : string) : keeps quiet (isfile path).
Proof. intros w. apply quiet_refl. Qed.

Lemma keeps_quiet_isdir (path : string) : keeps quiet (isdir path).
Proof. intros w. apply quiet_refl. Qed.

Lemma keeps_adds_print (allowed : Event -> bool) (line : string) :
  keeps (adds_only allowed) (print line).
Proof. intros w ev H. now left. Qed.

Lemma keeps_adds_emit (allowed : Event -> bool) (ev : Event) :
  allowed ev = true -> keeps (adds_only allowed) (emit ev).
Proof.
  intros Hev w ev' H. cbn in H.
  apply in_app_or in H. destruct H as [H|[<-|[]]]; [now left | now right].
Qed.

Lemma keeps_adds_isfile (allowed : Event -> bool) (path : string) :
  keeps (adds_only allowed) (isfile path).
Proof. intros w. apply adds_only_refl. Qed.

Lemma keeps_adds_isdir (allowed : Event -> bool) (path : string) :
  keeps (adds_only allowed) (isdir path).
Proof. intros w. apply adds_only_refl. Qed.

Lemma keeps_adds_write_file (allowed : Event -> bool) (audio : string -> option string)
  (path data : string) :
  keeps (adds_only allowed) (write_file audio path data).
Proof. intros w ev H. now left. Qed.

Create HintDb keepdb.

#[local] Hint Resolve keeps_quiet_print keeps_quiet_page keeps_quiet_isfile keeps_quiet_isdir
  keeps_adds_print keeps_adds_isfile keeps_adds_isdir keeps_adds_write_file : keepdb.

#[local] Hint Extern 1 (keeps (adds_only _) (emit _)) =>
  apply keeps_adds_emit; reflexivity : keepdb.

(** Walks through an operation: the relation is kept by each primitive
    step, hence by the whole. *)
Ltac keep_steps R_refl R_trans :=
  repeat first
    [ apply (keeps_ret _ R_refl)
    | apply (keeps_sys_exit _ R_refl)
    | apply (keeps_raise _ R_refl)
    | solve [auto with keepdb]
    | apply (keeps_bind _ R_trans); [| intros ? ]
    | apply (keeps_for_fold _ R_refl R_trans); intros ? ?
    | apply (keeps_for_each _ R_refl R_trans); intros ?
    | progress cbv beta iota zeta
    | match goal with
      | |- keeps _ (match ?x with _ => _ end) => destruct x
      end ].

Ltac keep_quiet := keep_steps quiet_refl quiet_trans.

Ltac keep_adds allowed := keep_steps (adds_only_refl allowed) (adds_only_trans allowed).

Section PageSteps.

Variable re_findall : rx -> string -> list string.
Variable env : Env.
Variable providers : list (string * Body).

Lemma keeps_quiet_download_html (url : string) : keeps quiet (download_html env url).
Proof. unfold download_html. keep_quiet. Qed.

Hint Resolve keeps_quiet_download_html : keepdb.

Lemma keeps_quiet_create_manifest (url : string) :
  keeps quiet (create_manifest re_findall env providers url).
Proof. unfold create_manifest. keep_quiet. Qed.

Lemma keeps_quiet_search (phrase : string) :
  keeps quiet (search re_findall env providers phrase).
Proof. unfold search, search_provider. keep_quiet. Qed.

End PageSteps.

Lemma keeps_bind_post {A B : Type} (R : World -> World -> Prop) (P : A -> Prop)
  (m : M A) (k : A -> M B) :
  (forall a b c, R a b -> R b c -> R a c) ->
  keeps R m ->
  (forall w a w', m w = Ok a w' -> P a) ->
  (forall a, P a -> keeps R (k a)) ->
  keeps R (bind m k).
Proof.
  intros R_trans Hm Hp Hk w. unfold bind. specialize (Hm w). specialize (Hp w).
  destruct (m w) as [a w'|c w'|e w']; cbn [result_world] in *; try exact Hm.
  apply (R_trans w w'); [exact Hm |]. apply Hk. now apply (Hp a w').
Qed.

Lemma bind_ret_value {A B : Type} (m : M A) (x y : B) (w w' : World) :
  bind m (fun _ => ret x) w = Ok y w' -> y = x.
Proof.
  unfold bind, ret. destruct (m w); [| discriminate | discriminate].
  now intros [= <- _].
Qed.

Section DryRun.

Variable re_findall : rx -> string -> list string.
Variable env : Env.
Variable providers : list (string * Body).

Hint Resolve keeps_quiet_download_html keeps_quiet_create_manifest keeps_quiet_search : keepdb.

Lemma keeps_quiet_download_dry (m : Manifest) (dir : string) :
  keeps quiet (download_ress env m dir true).
Proof. unfold download_ress, download_entry. keep_quiet. Qed.

Lemma keeps_quiet_playlist_dry (m : Manifest) (dir format : string) :
  keeps quiet (gen_playlist env m dir format true).
Proof. unfold gen_playlist. keep_quiet. Qed.

Hint Resolve keeps_quiet_download_dry keeps_quiet_playlist_dry : keepdb.

Lemma keeps_quiet_process_dry (url dir format : string) (playlist no_tag : bool) :
  keeps quiet (process re_findall env providers url true dir playlist format no_tag).
Proof.
  unfold process. cbn [negb]. rewrite andb_false_r. keep_quiet.
Qed.

Hint Resolve keeps_quiet_process_dry : keepdb.

Lemma main_arg_dry (argv : list string) (opts : Options) (ia : nat * string) :
  opt_dry_run opts = true ->
  keeps quiet (main_arg re_findall env providers argv opts ia)
  /\ (forall w flow w',
         main_arg re_findall env providers argv opts ia w = Ok flow w' ->
         match flow with
         | Next opts' => opt_dry_run opts' = true
         | Break => True
         end).
Proof.
  intros Hdry. destruct opts as [dir dry pl fmt0 nt]. cbn [opt_dry_run] in Hdry. subst dry.
  split.
  - unfold main_arg. cbn [opt_dry_run opt_output_dir opt_playlist opt_pl_format opt_no_tag].
    keep_quiet.
  - intros w flow w'. unfold main_arg.
    cbn [opt_dry_run opt_output_dir opt_playlist opt_pl_format opt_no_tag].
    destruct ia as [i arg].
    repeat match goal with
           | |- (if ?c then _ else _) _ = _ -> _ => destruct c
           end;
      try (intros H; apply bind_ret_value in H; now subst flow);
      try (unfold ret; intros [= <- _]; reflexivity).
Qed.

Lemma main_loop_dry (argv : list string) (rest : list (nat * string)) (opts : Options) :
  opt_dry_run opts = true ->
  keeps quiet (main_loop re_findall env providers argv opts rest).
Proof.
  revert opts. induction rest as [|ia rest IH]; intros opts Hdry.
  - apply (keeps_ret _ quiet_refl).
  - cbn [main_loop]. destruct (main_arg_dry argv opts ia Hdry) as [Hk Hp].
    apply (keeps_bind_post quiet
             (fun flow => match flow with
                          | Next opts' => opt_dry_run opts' = true
                          | Break => True
                          end));
      [exact quiet_trans | exact Hk | exact Hp |].
    intros [opts'|] Hf; [now apply IH | apply (keeps_ret _ quiet_refl)].
Qed.

(** X21: the dry run of [process] only prints and fetches the page: no file
    and no title tag changes, and the trace gains nothing but page
    fetches, whether the run ends normally, exits or raises. *)
Theorem X_process_dry_run_is_quiet (url dir format : string) (playlist no_tag : bool)
  (w : World) :
  let w' := result_world
              (process re_findall env providers url true dir playlist format no_tag w) in
  fs w' = fs w /\ tagdb w' = tagdb w
  /\ (forall ev, In ev (trace w') -> In ev (trace w) \/ exists u, ev = EvPage u).
Proof.
  destruct (keeps_quiet_process_dry url dir format playlist no_tag w) as [[F T] A].
  cbv zeta. split; [exact F | split; [exact T |]].
  intros ev H. destruct (A ev H) as [Hin|Hp]; [now left |].
  right. destruct ev; try discriminate. now eexists.
Qed.

(** X22: with [--dry_run] as its first option [main] changes no file and no
    title tag and asks the collaborators for nothing but pages, whatever
    arguments follow. *)
Theorem X_main_dry_run_is_quiet (cwd prog : string) (rest : list string) (w : World) :
  let w' := result_world
              (main re_findall env providers cwd (prog :: "--dry_run" :: rest) w) in
  fs w' = fs w /\ tagdb w' = tagdb w
  /\ (forall ev, In ev (trace w') -> In ev (trace w) \/ exists u, ev = EvPage u).
Proof.
  assert (Q : quiet w (result_world
                         (main re_findall env providers cwd (prog :: "--dry_run" :: rest) w))).
  { unfold main. cbn [List.length Nat.ltb Nat.leb enumerate_from].
    change (main_loop re_findall env providers (prog :: "--dry_run" :: rest)
              (mkOptions cwd false false None false)
              ((0, prog) :: (1, "--dry_run") :: enumerate_from 2 rest) w)
      with (main_loop re_findall env providers (prog :: "--dry_run" :: rest)
              (mkOptions cwd true false None false) (enumerate_from 2 rest) w).
    now apply main_loop_dry. }
  destruct Q as [[F T] A]. cbv zeta. split; [exact F | split; [exact T |]].
  intros ev H. destruct (A ev H) as [Hin|Hp]; [now left |].
  right. destruct ev; try discriminate. now eexists.
Qed.

End DryRun.

(** ** More on the manifest builder *)

Lemma dict_set_keys {V : Type} (d : list (string * V)) (key : string) (v : V) :
  map fst (dict_set d key v)
  = if existsb (String.eqb key) (map fst d) then map fst d else map fst d ++ [key].
Proof.
  induction d as [|[k v0] d IH]; [reflexivity |].
  cbn [dict_set map fst existsb]. rewrite (String.eqb_sym key k).
  destruct (String.eqb k key) eqn:E; [reflexivity |].
  cbn [map fst orb]. rewrite IH.
  now destruct (existsb (String.eqb key) (map fst d)).
Qed.

Lemma dict_set_nodup {V : Type} (d : list (string * V)) (key : string) (v : V) :
  NoDup (map fst d) -> NoDup (map fst (dict_set d key v)).
Proof.
  intros H. rewrite dict_set_keys.
  destruct (existsb (String.eqb key) (map fst d)) eqn:E; [exact H |].
  apply NoDup_app; [exact H | repeat constructor; intros [] |].
  intros k Hk [<-|[]].
  assert (X : existsb (String.eqb key) (map fst d) = true)
    by (apply existsb_exists; exists key; split; [exact Hk | apply String.eqb_refl]).
  congruence.
Qed.

Section BuilderInvariants.

Variable re_findall : rx -> string -> list string.
Variable env : Env.

(** Whatever holds of the empty manifest and survives an insertion holds
    of every manifest the builder returns. *)
Lemma build_manifest_invariant (P : Manifest -> Prop) (html : string)
  (ps : list (option Body)) (m : Manifest) :
  P [] ->
  (forall m k v, P m -> P (dict_set m k v)) ->
  build_manifest re_findall html ps = Some m -> P m.
Proof.
  intros P0 Pset. unfold build_manifest.
  assert (Hch : forall p chs st, P (fst st) ->
                  P (fst (fold_left (chapter_step re_findall p) chs st))).
  { intros p chs. induction chs as [|ch chs IH]; intros [m0 i] H; [exact H |].
    cbn [fold_left]. apply IH. rewrite chapter_step_unfold.
    destruct (chapter_href re_findall p ch); [apply Pset |]; exact H. }
  assert (Hps : forall ps st r,
             (forall st0, st = Some st0 -> P (fst st0)) ->
             fold_left (pattern_step re_findall html) ps st = Some r -> P (fst r)).
  { clear ps. intros ps. induction ps as [|p ps IH]; intros st r Hst Hr.
    - now apply Hst.
    - cbn [fold_left] in Hr. refine (IH _ r _ Hr).
      intros st0 E. destruct st as [st1|]; [| discriminate].
      destruct p as [p|]; [| discriminate].
      cbn [pattern_step] in E. injection E as <-. apply Hch. now apply Hst. }
  intros H.
  destruct (fold_left (pattern_step re_findall html) ps (Some ([], 0))) as [r|] eqn:E;
    [| discriminate].
  cbn [option_map] in H. injection H as <-.
  apply (Hps ps (Some ([], 0)) r); [| exact E].
  intros st0 [= <-]. exact P0.
Qed.



(** X5: no two entries of a built manifest have the same filename. *)
Theorem X_manifest_keys_distinct (html : string) (ps : list (option Body)) (m : Manifest) :
  build_manifest re_findall html ps = Some m -> NoDup (map fst m).
Proof.
  apply (build_manifest_invariant (fun m => NoDup (map fst m))).
  - constructor.
  - intros m0 k v. apply dict_set_nodup.
Qed.



(** X7: a page on which no selected rule finds a fragment gives the empty
    manifest, not an error. *)
Theorem X_no_fragment_empty_manifest (providers : list (string * Body))
  (url html : string) (ps : list Body) (w : World) :
  select_patterns providers url = map Some ps ->
  ps <> [] ->
  urlopen env url = Body_ html ->
  (forall p, In p ps -> findall_get re_findall (rx_chapters p) html = []) ->
  create_manifest re_findall env providers url w = Ok [] (traced (EvPage url) w).
Proof.
  intros Hsel Hne Hurl Hnone. unfold create_manifest. rewrite Hsel.
  destruct ps as [|p ps]; [contradiction |].
  change (map Some (p :: ps)) with (Some p :: map Some ps) at 1. cbv beta iota.
  unfold bind, download_html, bind, emit. rewrite Hurl. unfold ret.
  rewrite build_manifest_entries. unfold numbered_entries.
  replace (flat_map (kept_candidates re_findall html) (p :: ps)) with
    (@nil (Body * string * string)); [reflexivity |].
  symmetry. revert Hnone. generalize (p :: ps). intros l.
  induction l as [|q l IH]; intros H; [reflexivity |].
  cbn [flat_map]. unfold kept_candidates at 1. rewrite (H q (or_introl eq_refl)).
  cbn [kept_of flat_map app]. apply IH. intros r Hr. apply H. now right.
Qed.

End BuilderInvariants.

Lemma X_manifest_keys_distinct_witness :
  NoDup [ "Intro (001).mp3"; "Ch1 (002).mp3"; "Ch2 (003).mp3" ].
Proof.
  apply (X_manifest_keys_distinct simple_findall Demo.page_a [Some Demo.rule]
           [ ("Intro (001).mp3", mkItem "http://books.example/f/1.mp3" "Intro" None None);
             ("Ch1 (002).mp3", mkItem "http://books.example/f/2.mp3" "Ch1" None None);
             ("Ch2 (003).mp3", mkItem "http://books.example/f/3.mp3" "Ch2" None None) ]).
  vm_compute. reflexivity.
Defined.



Lemma X_no_fragment_empty_manifest_witness :
  create_manifest simple_findall Demo.env Demo.registry "http://books.example/?s=uncle+tom"
    Demo.empty_world
  = Ok [] (traced (EvPage "http://books.example/?s=uncle+tom") Demo.empty_world).
Proof.
  apply (X_no_fragment_empty_manifest simple_findall Demo.env Demo.registry
           "http://books.example/?s=uncle+tom" Demo.results_page [Demo.rule]);
    [reflexivity | discriminate | reflexivity |].
  intros p [<-|[]]. vm_compute. reflexivity.
Defined.

(** ** More on search *)

Section SearchMore.

Variable re_findall : rx -> string -> list string.
Variable env : Env.

Lemma spec_pair_up_length (prefix : string) (links titles : list string) :
  List.length (spec_pair_up prefix links titles)
  = List.length (filter (fun l => negb (String.eqb l "")) links).
Proof.
  revert titles. induction links as [|l links IH]; intros titles; [reflexivity |].
  cbn [spec_pair_up filter]. rewrite length_app, IH.
  now destruct (String.eqb l "").
Qed.

Lemma spec_pair_up_prefixed (prefix : string) (links titles : list string) :
  Forall (fun r => String.prefix prefix (fst r) = true) (spec_pair_up prefix links titles).
Proof.
  revert titles. induction links as [|l links IH]; intros titles; [constructor |].
  cbn [spec_pair_up]. apply Forall_app. split; [| apply IH].
  destruct (String.eqb l ""); repeat constructor. apply prefix_refl_app.
Qed.

(** X10: the inner loop of [search] keeps the results it was given in front
    and adds one result for each non-empty link, however many titles
    there are; every link it adds starts with the provider's prefix. *)
Theorem X_search_links_one_per_link (prepend : string) (titles links : list string)
  (results : list (string * string)) :
  exists added,
    search_links prepend titles results links = results ++ added
    /\ List.length added = List.length (filter (fun l => negb (String.eqb l "")) links)
    /\ Forall (fun r => String.prefix prepend (fst r) = true) added.
Proof.
  exists (spec_pair_up prepend links titles).
  split; [apply search_links_spec | split].
  - apply spec_pair_up_length.
  - apply spec_pair_up_prefixed.
Qed.



End SearchMore.


(** ** More on the download loop *)

Section DownloadMore.

Variable env : Env.

(** What one turn of the loop leaves in the entry and in the files. *)
Lemma download_entry_item (dir : string) (dry_run : bool) (k : string) (it : Item) (w : World) :
  exists it' w',
    download_entry env dir dry_run (k, it) w = Ok (k, it') w'
    /\ href it' = href it
    /\ title it' = title it
    /\ file it' = (if String.eqb (href it) "" then file it else Some (dir +++ "/" +++ k))
    /\ (downloaded it' = Some true ->
        exists data, urlopen env (href it) = Body_ data
                     /\ dict_get (fs w') (dir +++ "/" +++ k) = Some (File data))
    /\ (forall path, path <> dir +++ "/" +++ k -> dict_get (fs w') path = dict_get (fs w) path).
Proof.
  unfold download_entry. cbn [fst snd href set_downloaded set_file].
  destruct (String.eqb (href it) "").
  { unfold bind, print, ret. do 2 eexists. split; [reflexivity |].
    cbn [href title file downloaded fs]. repeat split; easy. }
  destruct dry_run.
  { unfold bind, print, ret. do 2 eexists. split; [reflexivity |].
    cbn [href title file downloaded fs]. repeat split; easy. }
  unfold bind, print, isfile, isdir. cbn [fs]. rewrite exists_test.
  destruct (dict_get (fs w) (dir +++ "/" +++ k)) as [node|] eqn:G.
  { unfold ret. do 2 eexists. split; [reflexivity |].
    cbn [href title file downloaded fs]. repeat split; easy. }
  unfold emit. cbn [fs tagdb stdout trace].
  destruct (urlopen env (href it)) as [data|e].
  - destruct (open_error env (dir +++ "/" +++ k)) as [e|].
    + unfold ret. do 2 eexists. split; [reflexivity |].
      cbn [href title file downloaded fs]. repeat split; easy.
    + unfold write_file, ret. do 2 eexists. split; [reflexivity |].
      cbn [href title file downloaded fs].
      split; [reflexivity |]. split; [reflexivity |]. split; [reflexivity |]. split.
      * intros _. exists data. split; [reflexivity | apply dict_get_set_same].
      * intros path Hp. apply dict_get_set_other. congruence.
  - unfold ret. do 2 eexists. split; [reflexivity |].
    cbn [href title file downloaded fs]. repeat split; easy.
Qed.

Lemma download_loop_items (dir : string) (dry_run : bool) (m : Manifest) (w : World) :
  exists m' w',
    for_each (download_entry env dir dry_run) m w = Ok m' w'
    /\ Forall2 (fun e e' =>
                  fst e' = fst e
                  /\ href (snd e') = href (snd e)
                  /\ title (snd e') = title (snd e)
                  /\ file (snd e') = (if String.eqb (href (snd e)) "" then file (snd e)
                                      else Some (dir +++ "/" +++ fst e))) m m'
    /\ (forall k it', In (k, it') m' -> downloaded it' = Some true ->
          exists data, urlopen env (href it') = Body_ data
                       /\ dict_get (fs w') (dir +++ "/" +++ k) = Some (File data))
    /\ (forall path, (forall k, In k (map fst m) -> path <> dir +++ "/" +++ k) ->
          dict_get (fs w') path = dict_get (fs w) path).
Proof.
  revert w. induction m as [|[k it] m IH]; intros w.
  - exists [], w. cbn. repeat split; easy.
  - cbn [for_each]. unfold bind.
    destruct (download_entry_item dir dry_run k it w) as (it1 & w1 & E1 & H1 & T1 & F1 & D1 & O1).
    rewrite E1.
    destruct (IH w1) as (m2 & w2 & E2 & A2 & D2 & O2). rewrite E2. unfold ret.
    destruct (download_loop_run env dir dry_run m w1) as (m3 & w3 & evs & E3 & _ & _ & P3 & _).
    rewrite E2 in E3. injection E3 as <- <-.
    exists ((k, it1) :: m2), w2. split; [reflexivity |]. split; [| split].
    + constructor; [now cbn | exact A2].
    + intros k' it' [Hin|Hin] Hd.
      * injection Hin as <- <-. destruct (D1 Hd) as (data & Hu & Hf).
        exists data. rewrite H1. split; [exact Hu | now apply P3].
      * now apply D2.
    + intros path Hp. rewrite O2.
      * apply O1. apply Hp. now left.
      * intros k' Hk'. apply Hp. now right.
Qed.

(** X12: without the output directory the download loop exits with status 1
    before it looks at any entry, in the dry run too. *)
Theorem X_missing_output_dir_is_fatal (m : Manifest) (dir : string) (dry_run : bool)
  (w : World) :
  dict_get (fs w) dir <> Some Dir ->
  download_ress env m dir dry_run w
  = Exit 1 (printed "Target directory does not exist! Aborting..." w).
Proof.
  intros H. unfold download_ress, bind, isdir.
  destruct (dict_get (fs w) dir) as [[|b]|]; [now elim H | reflexivity | reflexivity].
Qed.


(** X14: an entry marked as downloaded has its file in place at the end of the
    loop, holding the bytes the network served for its source URL. *)
Theorem X_downloaded_means_file_in_place (m : Manifest) (dir : string) (dry_run : bool)
  (w w' : World) (m' : Manifest) (k : string) (it' : Item) :
  download_ress env m dir dry_run w = Ok m' w' ->
  In (k, it') m' ->
  downloaded it' = Some true ->
  exists data, urlopen env (href it') = Body_ data
               /\ dict_get (fs w') (dir +++ "/" +++ k) = Some (File data).
Proof.
  unfold download_ress, bind, isdir.
  destruct (dict_get (fs w) dir) as [[|b]|]; cbn [negb]; try discriminate.
  destruct (download_loop_items dir dry_run m w) as (m2 & w2 & E & _ & D & _).
  rewrite E. intros [= <- <-]. apply D.
Qed.

(** X15: the loop touches no path other than the targets of its entries. *)
Theorem X_download_touches_only_targets (m : Manifest) (dir : string) (dry_run : bool)
  (w : World) (path : string) :
  (forall k, In k (map fst m) -> path <> dir +++ "/" +++ k) ->
  dict_get (fs (result_world (download_ress env m dir dry_run w))) path
  = dict_get (fs w) path.
Proof.
  intros Hp. unfold download_ress, bind, isdir.
  destruct (dict_get (fs w) dir) as [[|b]|]; cbn [negb]; try reflexivity.
  destruct (download_loop_items dir dry_run m w) as (m2 & w2 & E & _ & _ & O).
  rewrite E. cbn [result_world]. now apply O.
Qed.

End DownloadMore.

Lemma X_missing_output_dir_is_fatal_witness :
  download_ress Demo.env Demo.manifest2 "elsewhere" false Demo.world
  = Exit 1 (printed "Target directory does not exist! Aborting..." Demo.world).
Proof.
  apply X_missing_output_dir_is_fatal. discriminate.
Defined.


Lemma X_downloaded_means_file_in_place_witness :
  exists data,
    urlopen Demo.env "http://books.example/f/2.mp3" = Body_ data
    /\ dict_get (fs (result_world (download_ress Demo.env Demo.manifest2 "out" false
                                     Demo.world)))
                ("out" +++ "/" +++ "Ch2 (002).mp3") = Some (File data).
Proof.
  apply (X_downloaded_means_file_in_place Demo.env Demo.manifest2 "out" false Demo.world
           (result_world (download_ress Demo.env Demo.manifest2 "out" false Demo.world))
           [ ("Ch1 (001).mp3",
              mkItem "http://books.example/f/1.mp3" "Ch1" (Some false)
                     (Some "out/Ch1 (001).mp3"));
             ("Ch2 (002).mp3",
              mkItem "http://books.example/f/2.mp3" "Ch2" (Some true)
                     (Some "out/Ch2 (002).mp3")) ]
           "Ch2 (002).mp3"
           (mkItem "http://books.example/f/2.mp3" "Ch2" (Some true) (Some "out/Ch2 (002).mp3")));
    [vm_compute; reflexivity | right; left; reflexivity | reflexivity].
Defined.

Lemma X_download_touches_only_targets_witness :
  dict_get (fs (result_world (download_ress Demo.env Demo.manifest2 "out" false Demo.world)))
           "out/notes.txt"
  = dict_get (fs Demo.world) "out/notes.txt".
Proof.
  apply X_download_touches_only_targets.
  intros k [<-|[<-|[]]]; discriminate.
Defined.

(** ** The playlist file *)

Section PlaylistFile.

Variable env : Env.

Lemma gen_playlist_existing (m : Manifest) (dir format : string) (dry_run : bool)
  (w : World) :
  dict_get (fs w) (dir +++ "/playlist." +++ format) <> None ->
  gen_playlist env m dir format dry_run w
  = Ok (Some 1%Z)
       (printed (nl +++ nl +++ "File " +++ (dir +++ "/playlist." +++ format)
                 +++ " already exists! Ignoring...") w).
Proof.
  intros H. unfold gen_playlist, bind, isfile, isdir, print. cbn [fs]. rewrite exists_test.
  destruct (dict_get (fs w) (dir +++ "/playlist." +++ format)); [reflexivity | now elim H].
Qed.

(** X16: [gen_playlist] never changes a path that exists; when the playlist
    path itself exists, as a file or a directory, it prints the notice
    and returns 1, whatever the format and the mode. *)
Theorem X_playlist_never_overwrites (m : Manifest) (dir format : string) (dry_run : bool)
  (w : World) :
  (forall path node,
      dict_get (fs w) path = Some node ->
      dict_get (fs (result_world (gen_playlist env m dir format dry_run w))) path = Some node)
  /\ (dict_get (fs w) (dir +++ "/playlist." +++ format) <> None ->
      gen_playlist env m dir format dry_run w
      = Ok (Some 1%Z)
           (printed (nl +++ nl +++ "File " +++ (dir +++ "/playlist." +++ format)
                     +++ " already exists! Ignoring...") w)).
Proof.
  split; [| apply gen_playlist_existing].
  intros path node Hp.
  destruct (dict_get (fs w) (dir +++ "/playlist." +++ format)) as [node0|] eqn:G.
  - rewrite gen_playlist_existing by (rewrite G; discriminate). exact Hp.
  - unfold gen_playlist, bind, isfile, isdir, print. cbn [fs]. rewrite exists_test, G.
    assert (Hne : dir +++ "/playlist." +++ format <> path)
      by (intros <-; rewrite G in Hp; discriminate).
    destruct dry_run; [exact Hp |].
    unfold emit. cbn [fs]. destruct (open_error env (dir +++ "/playlist." +++ format));
      [exact Hp |].
    destruct (String.eqb format "pls"); unfold write_file, ret, raise;
      cbn [result_world fs]; now rewrite dict_get_set_other.
Qed.

(** X17: written once: where no playlist exists and the file can be opened,
    [gen_playlist] in the [pls] format stores the playlist text at
    [output_dir/playlist.pls]; any later call for that directory finds
    the file and refuses, returning 1. *)
Theorem X_playlist_written_once (m : Manifest) (dir : string) (w : World) :
  dict_get (fs w) (dir +++ "/playlist." +++ "pls") = None ->
  open_error env (dir +++ "/playlist." +++ "pls") = None ->
  exists w1,
    gen_playlist env m dir "pls" false w = Ok None w1
    /\ dict_get (fs w1) (dir +++ "/playlist." +++ "pls") = Some (File (pls_text m))
    /\ (forall m2 dry_run,
           gen_playlist env m2 dir "pls" dry_run w1
           = Ok (Some 1%Z)
                (printed (nl +++ nl +++ "File " +++ (dir +++ "/playlist." +++ "pls")
                          +++ " already exists! Ignoring...") w1)).
Proof.
  intros G Ho.
  assert (E : exists w1, gen_playlist env m dir "pls" false w = Ok None w1
                         /\ dict_get (fs w1) (dir +++ "/playlist." +++ "pls")
                            = Some (File (pls_text m))).
  { unfold gen_playlist, bind, isfile, isdir, print. cbn [fs]. rewrite exists_test, G.
    unfold emit. cbn [fs]. rewrite Ho. cbn [String.eqb Ascii.eqb Bool.eqb andb].
    unfold write_file, ret. eexists. split; [reflexivity |].
    cbn [fs]. apply dict_get_set_same. }
  destruct E as (w1 & E1 & F1). exists w1. split; [exact E1 | split; [exact F1 |]].
  intros m2 dry_run. apply gen_playlist_existing. rewrite F1. discriminate.
Qed.

(** X18: with a format other than [pls] the playlist text is never bound:
    where the file does not exist and can be opened, the call leaves an
    empty file behind and raises instead of returning. *)
Theorem X_playlist_other_format_raises (m : Manifest) (dir format : string) (w : World) :
  format <> "pls" ->
  dict_get (fs w) (dir +++ "/playlist." +++ format) = None ->
  open_error env (dir +++ "/playlist." +++ format) = None ->
  exists w1,
    gen_playlist env m dir format false w = Raise "UnboundLocalError" w1
    /\ dict_get (fs w1) (dir +++ "/playlist." +++ format) = Some (File "").
Proof.
  intros Hf G Ho.
  unfold gen_playlist, bind, isfile, isdir, print. cbn [fs]. rewrite exists_test, G.
  unfold emit. cbn [fs]. rewrite Ho.
  destruct (String.eqb_spec format "pls"); [contradiction |].
  unfold write_file, raise. eexists. split; [reflexivity |].
  cbn [fs]. apply dict_get_set_same.
Qed.

End PlaylistFile.

Lemma X_playlist_never_overwrites_witness :
  gen_playlist Demo.env Demo.manifest2 "out" "pls" false
    (mkWorld [("out", Dir); ("out/playlist.pls", File "KEEP")] [] [] [])
  = Ok (Some 1%Z)
       (printed (nl +++ nl +++ "File " +++ ("out" +++ "/playlist." +++ "pls")
                 +++ " already exists! Ignoring...")
                (mkWorld [("out", Dir); ("out/playlist.pls", File "KEEP")] [] [] []))
  /\ dict_get (fs (result_world
                     (gen_playlist Demo.env Demo.manifest2 "out" "pls" false Demo.world)))
              "out/Ch1 (001).mp3" = Some (File "OLD-BYTES").
Proof.
  split.
  - apply (proj2 (X_playlist_never_overwrites Demo.env Demo.manifest2 "out" "pls" false _)).
    discriminate.
  - apply (proj1 (X_playlist_never_overwrites Demo.env Demo.manifest2 "out" "pls" false
                    Demo.world)).
    reflexivity.
Defined.

Lemma X_playlist_written_once_witness :
  exists w1,
    gen_playlist Demo.env Demo.manifest2 "out" "pls" false Demo.world = Ok None w1
    /\ dict_get (fs w1) ("out" +++ "/playlist." +++ "pls")
       = Some (File (pls_text Demo.manifest2))
    /\ (forall m2 dry_run,
           gen_playlist Demo.env m2 "out" "pls" dry_run w1
           = Ok (Some 1%Z)
                (printed (nl +++ nl +++ "File " +++ ("out" +++ "/playlist." +++ "pls")
                          +++ " already exists! Ignoring...") w1)).
Proof.
  apply (X_playlist_written_once Demo.env Demo.manifest2 "out" Demo.world); reflexivity.
Defined.

Lemma X_playlist_other_format_raises_witness :
  exists w1,
    gen_playlist Demo.env Demo.manifest2 "out" "m3u" false Demo.world
    = Raise "UnboundLocalError" w1
    /\ dict_get (fs w1) ("out" +++ "/playlist." +++ "m3u") = Some (File "").
Proof.
  apply (X_playlist_other_format_raises Demo.env Demo.manifest2 "out" "m3u" Demo.world);
    [discriminate | reflexivity | reflexivity].
Defined.

(** ** The tag pass and the whole run *)

Section RunMore.

Variable re_findall : rx -> string -> list string.
Variable env : Env.
Variable providers : list (string * Body).


(** X20: with [no_tag] set, [process] never calls the tag library: the trace
    gains no load and no save, however the run ends. *)
Theorem X_process_no_tag_skips_tag_library (url dir format : string)
  (dry_run playlist : bool) (w : World) :
  forall ev,
    In ev (trace (result_world
                    (process re_findall env providers url dry_run dir playlist format true w))) ->
    In ev (trace w) \/ is_tag_call ev = false.
Proof.
  assert (K : keeps (adds_only (fun ev => negb (is_tag_call ev)))
                (process re_findall env providers url dry_run dir playlist format true)).
  { unfold process, create_manifest, download_html, download_ress, download_entry,
      gen_playlist. cbn [negb andb].
    keep_adds (fun ev => negb (is_tag_call ev)). }
  intros ev H. destruct (K w ev H) as [Hin|Hn]; [now left |].
  right. now apply negb_true_iff.
Qed.

End RunMore.

(** ** The command line *)

Section CommandLineMore.

Variable re_findall : rx -> string -> list string.
Variable env : Env.
Variable providers : list (string * Body).

(** X23: [--search] ends the reading of the command line: the argument after
    it is the phrase, and whatever follows is ignored; with no phrase,
    or an empty one, [main] prints a notice and returns normally. *)
Theorem X_main_search_ends_the_run (cwd prog : string) (rest : list string) (w : World) :
  main re_findall env providers cwd (prog :: "--search" :: rest) w
  = if String.eqb (hd "" rest) ""
    then Ok tt (printed "No search phrase given!" w)
    else bind (search re_findall env providers (hd "" rest)) (fun _ => ret tt) w.
Proof.
  unfold main. cbn [List.length Nat.ltb Nat.leb enumerate_from main_loop].
  unfold bind at 1. cbn [main_arg Nat.eqb]. unfold ret at 1.
  unfold bind at 1. unfold main_arg.
  change (Z.of_nat 1 + 1)%Z with (Z.of_nat 2). rewrite slist_nat.
  replace (nth 2 (prog :: "--search" :: rest) "") with (hd "" rest) by (now destruct rest).
  cbn [Nat.eqb startswith String.prefix String.eqb Ascii.eqb Bool.eqb andb orb].
  destruct (ascii_dec "-" "-") as [_|N]; [| now elim N].
  destruct (ascii_dec "o" "s") as [N|_]; [discriminate N |].
  destruct (String.eqb (hd "" rest) "").
  - reflexivity.
  - unfold bind. destruct (search re_findall env providers (hd "" rest) w); reflexivity.
Qed.

(** X24: an argument that is neither an option nor a supported URL ends the
    run with status 1: the arguments after it are never looked at. *)
Theorem X_main_unsupported_url_ends_the_run (cwd prog : string) (c : ascii) (s : string)
  (rest : list string) (w : World) :
  c <> "-"%char ->
  (forall entry, In entry providers -> String.prefix (fst entry) (String c s) = false) ->
  main re_findall env providers cwd (prog :: String c s :: rest) w
  = Exit 1 (printed "Provider not supported. Aborting..." w).
Proof.
  intros Hc Hp. unfold main. cbn [List.length Nat.ltb Nat.leb enumerate_from main_loop].
  unfold bind at 1. cbn [main_arg Nat.eqb]. unfold ret at 1.
  unfold bind at 1. unfold main_arg.
  cbn [Nat.eqb startswith String.prefix String.eqb].
  destruct (ascii_dec "-" c) as [E|_]; [now elim Hc |].
  assert (Hc' : Ascii.eqb c "-" = false) by now apply Ascii.eqb_neq.
  rewrite Hc'. cbn [andb orb].
  unfold bind at 1, process, bind at 1, create_manifest.
  rewrite select_patterns_filter, (filter_none (matches (String c s)) providers Hp).
  reflexivity.
Qed.

End CommandLineMore.

Lemma X_main_unsupported_url_ends_the_run_witness :
  main simple_findall Demo.env Demo.registry "out"
    ["prog"; "ftp://books.example/a"; "http://books.example/a"] Demo.world
  = Exit 1 (printed "Provider not supported. Aborting..." Demo.world).
Proof.
  apply X_main_unsupported_url_ends_the_run; [discriminate |].
  intros entry [<-|[<-|[]]]; reflexivity.
Defined.

(** ** Filenames do not collide *)

Lemma lacks_app (c : ascii) (a b : string) : lacks c (a +++ b) = lacks c a && lacks c b.
Proof.
  induction a as [|x a IH]; [reflexivity |].
  cbn [String.append lacks]. rewrite IH. now rewrite andb_assoc.
Qed.

Lemma lacks_zeros (c : ascii) (n : nat) : c <> "0"%char -> lacks c (zeros n) = true.
Proof.
  intros Hc. induction n as [|n IH]; [reflexivity |].
  cbn [zeros lacks]. rewrite IH, andb_true_r.
  apply negb_true_iff, Ascii.eqb_neq. congruence.
Qed.

Lemma lacks_open_uint (d : Decimal.uint) : lacks "(" (NilEmpty.string_of_uint d) = true.
Proof. induction d; simpl; auto. Qed.

Lemma lacks_close_uint (d : Decimal.uint) : lacks ")" (NilEmpty.string_of_uint d) = true.
Proof. induction d; simpl; auto. Qed.

Lemma lacks_open_ordinal (i : nat) : lacks "(" (zfill 3 (str i)) = true.
Proof.
  unfold zfill. rewrite lacks_app, lacks_zeros by discriminate. apply lacks_open_uint.
Qed.

Lemma lacks_close_ordinal (i : nat) : lacks ")" (zfill 3 (str i)) = true.
Proof.
  unfold zfill. rewrite lacks_app, lacks_zeros by discriminate. apply lacks_close_uint.
Qed.

Lemma zeros_value (k : nat) (s : string) (d : Decimal.uint) :
  NilEmpty.uint_of_string s = Some d ->
  exists d', NilEmpty.uint_of_string (zeros k +++ s) = Some d'
             /\ Nat.of_uint d' = Nat.of_uint d.
Proof.
  intros H. induction k as [|k (d' & E & V)]; [now exists d |].
  exists (Decimal.D0 d'). cbn [zeros String.append NilEmpty.uint_of_string].
  rewrite E. split; [reflexivity | exact V].
Qed.

Lemma ordinal_inj (i j : nat) : zfill 3 (str i) = zfill 3 (str j) -> i = j.
Proof.
  unfold zfill, str. intros H.
  destruct (zeros_value (3 - String.length (NilEmpty.string_of_uint (Nat.to_uint i)))
              _ _ (NilEmpty.usu (Nat.to_uint i))) as (di & Ei & Vi).
  destruct (zeros_value (3 - String.length (NilEmpty.string_of_uint (Nat.to_uint j)))
              _ _ (NilEmpty.usu (Nat.to_uint j))) as (dj & Ej & Vj).
  rewrite H, Ej in Ei. injection Ei as <-.
  rewrite !DecimalNat.Unsigned.of_to in *. congruence.
Qed.

Lemma append_cancel_r (a b c : string) : a +++ c = b +++ c -> a = b.
Proof.
  intros H.
  assert (L : String.length a = String.length b).
  { apply (f_equal String.length) in H. rewrite !length_append in H. lia. }
  revert b H L. induction a as [|x a IH]; intros [|y b] H L; try discriminate.
  - reflexivity.
  - cbn [String.append] in H. injection H as -> H. f_equal. apply IH; [exact H |].
    cbn in L. lia.
Qed.

Lemma append_cancel_l (a b c : string) : a +++ b = a +++ c -> b = c.
Proof. induction a as [|x a IH]; [easy |]. cbn. intros [= H]. now apply IH. Qed.

(** What follows the last opening parenthesis. *)
Lemma after_last_open (x y d1 d2 : string) :
  lacks "(" d1 = true -> lacks "(" d2 = true ->
  x +++ String "(" d1 = y +++ String "(" d2 -> d1 = d2.
Proof.
  intros H1 H2. revert y. induction x as [|c x IH]; intros [|c' y] H.
  - now injection H.
  - cbn [String.append] in H. injection H as <- H. rewrite H, lacks_app in H1.
    cbn in H1. now rewrite andb_false_r in H1.
  - cbn [String.append] in H. injection H as -> H. rewrite <- H, lacks_app in H2.
    cbn in H2. now rewrite andb_false_r in H2.
  - cbn [String.append] in H. injection H as _ H. now apply (IH y).
Qed.

(** Two filenames with one extension are equal only for one ordinal. *)
Lemma spec_filename_inj (e t t' : string) (i j : nat) :
  spec_filename e i t = spec_filename e j t' -> i = j.
Proof.
  unfold spec_filename.
  destruct (String.eqb t ""), (String.eqb t' ""); intros H.
  - apply append_cancel_l, append_cancel_r in H. now apply ordinal_inj.
  - exfalso.
    replace (t' +++ " (" +++ zfill 3 (str j) +++ ")." +++ e)
      with ((t' +++ " (" +++ zfill 3 (str j) +++ ")") +++ "." +++ e) in H
      by (now rewrite !append_assoc).
    replace ("Part " +++ zfill 3 (str i) +++ "." +++ e)
      with (("Part " +++ zfill 3 (str i)) +++ "." +++ e) in H
      by (now rewrite !append_assoc).
    apply append_cancel_r in H. apply (f_equal (lacks ")")) in H.
    rewrite !lacks_app, !lacks_close_ordinal in H. cbn in H.
    now rewrite !andb_false_r in H.
  - exfalso.
    replace (t +++ " (" +++ zfill 3 (str i) +++ ")." +++ e)
      with ((t +++ " (" +++ zfill 3 (str i) +++ ")") +++ "." +++ e) in H
      by (now rewrite !append_assoc).
    replace ("Part " +++ zfill 3 (str j) +++ "." +++ e)
      with (("Part " +++ zfill 3 (str j)) +++ "." +++ e) in H
      by (now rewrite !append_assoc).
    apply append_cancel_r in H. apply (f_equal (lacks ")")) in H.
    rewrite !lacks_app, !lacks_close_ordinal in H. cbn in H.
    now rewrite !andb_false_r in H.
  - replace (t +++ " (" +++ zfill 3 (str i) +++ ")." +++ e)
      with (((t +++ " ") +++ String "(" (zfill 3 (str i))) +++ ")." +++ e) in H
      by (now rewrite !append_assoc).
    replace (t' +++ " (" +++ zfill 3 (str j) +++ ")." +++ e)
      with (((t' +++ " ") +++ String "(" (zfill 3 (str j))) +++ ")." +++ e) in H
      by (now rewrite !append_assoc).
    apply append_cancel_r, after_last_open in H;
      [now apply ordinal_inj | apply lacks_open_ordinal | apply lacks_open_ordinal].
Qed.

Lemma dict_set_fresh {V : Type} (d : list (string * V)) (key : string) (v : V) :
  ~ In key (map fst d) -> dict_set d key v = d ++ [(key, v)].
Proof.
  induction d as [|[k v0] d IH]; intros H; [reflexivity |].
  cbn [dict_set]. destruct (String.eqb_spec k key) as [->|Hk].
  - elim H. now left.
  - cbn [app]. f_equal. apply IH. intros Hin. apply H. now right.
Qed.

Lemma insert_all_fresh (l : list (string * Item)) (m : Manifest) :
  NoDup (map fst (m ++ l)) -> insert_all l m = m ++ l.
Proof.
  revert m. induction l as [|[k v] l IH]; intros m H; [now rewrite app_nil_r |].
  unfold insert_all. cbn [fold_left fst snd]. fold (insert_all l (dict_set m k v)).
  assert (Hk : ~ In k (map fst m)).
  { rewrite map_app in H. cbn [map fst] in H. apply NoDup_remove_2 in H.
    intros Hin. apply H. apply in_or_app. now left. }
  rewrite (dict_set_fresh m k v Hk), IH; rewrite <- app_assoc; [reflexivity | exact H].
Qed.

Lemma enumerate_from_lower {A : Type} (n i : nat) (a : A) (l : list A) :
  In (i, a) (enumerate_from n l) -> n <= i.
Proof.
  revert n. induction l as [|x l IH]; intros n; [intros [] |].
  intros [[= <- _]|H]; [lia |]. apply IH in H. lia.
Qed.

Lemma numbered_keys_distinct (e : string) (cands : list (Body * string * string)) (n : nat) :
  Forall (fun c => get_ext (fst (fst c)) = e) cands ->
  NoDup (map fst (map entry_of (enumerate_from n cands))).
Proof.
  revert n. induction cands as [|[[p h] t] cands IH]; intros n H; [constructor |].
  apply Forall_cons_iff in H. destruct H as [Hp Hc]. cbn [fst] in Hp.
  cbn [enumerate_from map]. constructor; [| now apply IH].
  cbn [entry_of fst]. rewrite map_map. intros Hin.
  apply in_map_iff in Hin. destruct Hin as ([i [[q h'] t']] & Hk & Hi).
  cbn [entry_of fst] in Hk.
  assert (Hq : get_ext q = get_ext p).
  { assert (X : In (q, h', t') cands).
    { clear -Hi. revert Hi. generalize (S n). induction cands as [|c cands IH]; intros k;
        [intros [] |].
      intros [[= _ <-]|H]; [now left | right; now apply (IH (S k))]. }
    rewrite Hp. exact (proj1 (Forall_forall _ _) Hc _ X). }
  rewrite Hq in Hk. apply spec_filename_inj in Hk.
  apply enumerate_from_lower in Hi. lia.
Qed.

(** X6: when the selected rules share one extension, as all the rules of
    [PROVIDERS] do, no filename is used twice: the manifest holds one
    entry for every kept candidate, in the order of the page and of the
    rules, none having overwritten another. *)
Theorem X_one_extension_no_collision (re_findall : rx -> string -> list string)
  (html e : string) (ps : list Body) :
  (forall p, In p ps -> get_ext p = e) ->
  build_manifest re_findall html (map Some ps) = Some (numbered_entries re_findall html ps)
  /\ (forall url p, In (Some p) (select_patterns PROVIDERS url) -> get_ext p = "mp3").
Proof.
  intros H. split.
  2:{ intros url p Hin. rewrite select_patterns_filter in Hin.
      apply in_map_iff in Hin. destruct Hin as (entry & Hr & Hin).
      apply filter_In in Hin. destruct Hin as [Hin _].
      destruct Hin as [<-|[<-|[<-|[<-|[<-|[]]]]]]; injection Hr as <-; reflexivity. }
  rewrite build_manifest_entries. f_equal.
  rewrite (insert_all_fresh (numbered_entries re_findall html ps) []); [reflexivity |].
  cbn [app]. unfold numbered_entries. apply (numbered_keys_distinct e).
  apply Forall_forall. intros [[p h] t] Hin. cbn [fst].
  apply in_flat_map in Hin. destruct Hin as (q & Hq & Hin).
  unfold kept_candidates, kept_of in Hin. apply in_flat_map in Hin.
  destruct Hin as (ch & _ & Hin).
  destruct (chapter_href re_findall q ch); [| contradiction].
  destruct Hin as [[= <- _ _]|[]]. now apply H.
Qed.

Lemma X_one_extension_no_collision_witness :
  build_manifest simple_findall Demo.page_a (map Some [Demo.rule])
  = Some (numbered_entries simple_findall Demo.page_a [Demo.rule]).
Proof.
  apply (X_one_extension_no_collision simple_findall Demo.page_a "mp3" [Demo.rule]).
  intros p [<-|[]]. reflexivity.
Defined.

Lemma X_process_dry_run_is_quiet_witness :
  In (EvPage "http://books.example/b") (trace Demo.world)
  \/ exists u, EvPage "http://books.example/b" = EvPage u.
Proof.
  apply (proj2 (proj2 (X_process_dry_run_is_quiet simple_findall Demo.env Demo.registry
                         "http://books.example/b" "out" "pls" true false Demo.world))).
  vm_compute. now left.
Defined.

Lemma X_main_dry_run_is_quiet_witness :
  In (EvPage "http://books.example/b") (trace Demo.world)
  \/ exists u, EvPage "http://books.example/b" = EvPage u.
Proof.
  apply (proj2 (proj2 (X_main_dry_run_is_quiet simple_findall Demo.env Demo.registry
                         "out" "prog" ["--pls"; "http://books.example/b"] Demo.world))).
  vm_compute. now left.
Defined.

Lemma X_process_no_tag_skips_tag_library_witness :
  In (EvWrite "Ch2 (002).mp3" "out/Ch2 (002).mp3") (trace Demo.world)
  \/ is_tag_call (EvWrite "Ch2 (002).mp3" "out/Ch2 (002).mp3") = false.
Proof.
  apply (X_process_no_tag_skips_tag_library simple_findall Demo.env Demo.registry
           "http://books.example/b" "out" "pls" false true Demo.world).
  vm_compute. right. right. now left.
Defined.
